(** * resolve-by-mlabns: a pdns pipe backend, embedded in Rocq

    The development follows [src/resolve-by-mlabns.py] function by function.
    Python byte strings are [string]s, the query dictionary is a record read
    through its keys, [stdout] is the list of the writes and flushes made so
    far, and the two outside parties (the mlab-ns naming service and the file
    [/etc/donar.txt]) are part of an explicit [World].

    Python exceptions are an [outcome]: a call [Returns] a value or [Raises]
    an exception.  A third outcome, [Unmodelled], marks the two places where
    the embedding stops: conversions of the [%] operator other than
    [%(key)s] and [%%], and text that is not ASCII on the path where Python 2
    mixes [str] and [unicode].  No theorem below concludes anything from an
    [Unmodelled] run.  Reads of [stdin] and writes to [stdout] are taken
    not to fail. *)

From Stdlib Require Import String Ascii List ZArith Bool Lia DecimalString.
Import ListNotations.
Set Warnings "-register-all".
Open Scope list_scope.
Open Scope string_scope.

(** ** Characters and strings *)

Definition TAB : string := String "009"%char EmptyString.
Definition LF : string := String "010"%char EmptyString.

(** The six characters Python 2 [str.strip()] removes. *)
Definition is_space (c : ascii) : bool :=
  match nat_of_ascii c with
  | 9 | 10 | 11 | 12 | 13 | 32 => true
  | _ => false
  end.

Fixpoint lstrip (s : string) : string :=
  match s with
  | EmptyString => EmptyString
  | String c r => if is_space c then lstrip r else s
  end.

Fixpoint rstrip (s : string) : string :=
  match s with
  | EmptyString => EmptyString
  | String c r =>
      match rstrip r with
      | EmptyString => if is_space c then EmptyString else String c EmptyString
      | r' => String c r'
      end
  end.

(** [s.strip()] *)
Definition strip (s : string) : string := rstrip (lstrip s).

(** [s.split(sep)] for a one-character separator: always at least one field. *)
Fixpoint split (sep : ascii) (s : string) : list string :=
  match s with
  | EmptyString => [EmptyString]
  | String c r =>
      if Ascii.eqb c sep then EmptyString :: split sep r
      else match split sep r with
           | f :: fs => String c f :: fs
           | [] => [String c EmptyString]
           end
  end.

(** [s.replace(a, b)] for single characters. *)
Fixpoint replace (a b : ascii) (s : string) : string :=
  match s with
  | EmptyString => EmptyString
  | String c r => String (if Ascii.eqb c a then b else c) (replace a b r)
  end.

(** [sub in s] *)
Fixpoint contains (sub s : string) : bool :=
  prefix sub s ||
  match s with
  | EmptyString => false
  | String _ r => contains sub r
  end.

Fixpoint forall_chars (p : ascii -> bool) (s : string) : bool :=
  match s with
  | EmptyString => true
  | String c r => p c && forall_chars p r
  end.

Definition no_percent (s : string) : bool :=
  forall_chars (fun c => negb (Ascii.eqb c "%")) s.

Definition is_ascii (s : string) : bool :=
  forall_chars (fun c => Nat.ltb (nat_of_ascii c) 128) s.

(** [f.readline()] on the unread bytes: the line with its terminator, and
    what is left.  At end of input the line is empty. *)
Fixpoint read_line (s : string) : string * string :=
  match s with
  | EmptyString => (EmptyString, EmptyString)
  | String c r =>
      if Ascii.eqb c "010" then (String c EmptyString, r)
      else let (l, rest) := read_line r in (String c l, rest)
  end.

(** [f.readlines()]: every line keeps its terminator. *)
Fixpoint read_lines (s : string) : list string :=
  match s with
  | EmptyString => []
  | String c r =>
      if Ascii.eqb c "010" then String c EmptyString :: read_lines r
      else match read_lines r with
           | l :: ls => String c l :: ls
           | [] => [String c EmptyString]
           end
  end.

(** [str(n)] for an integer. *)
Definition str_int (n : Z) : string := NilZero.string_of_int (Z.to_int n).

(** ** Values, exceptions, outcomes *)

Inductive pyval :=
| PyNone
| PyStr (s : string)
| PyInt (n : Z).

Definition py_str (v : pyval) : string :=
  match v with
  | PyNone => "None"
  | PyStr s => s
  | PyInt n => str_int n
  end.

Definition of_opt (o : option string) : pyval :=
  match o with
  | Some s => PyStr s
  | None => PyNone
  end.

Inductive exn :=
| NameError
| ValueError
| TypeError
| KeyError
| IOError.

Inductive outcome (A : Type) :=
| Returns (a : A)
| Raises (e : exn)
| Unmodelled.
Arguments Returns {A} a.
Arguments Raises {A} e.
Arguments Unmodelled {A}.

Definition omap {A B} (f : A -> B) (o : outcome A) : outcome B :=
  match o with
  | Returns a => Returns (f a)
  | Raises e => Raises e
  | Unmodelled => Unmodelled
  end.

(** ** Constants of the module *)

Definition RECORD_TTL : Z := 300.
Definition DOMAIN : string := "donar.measurement-lab.org".
Definition NDT_HOSTLIST : list string := ["ndt.iupui." ++ DOMAIN; DOMAIN].

(** ** The query dictionary *)

Record Query := mkQuery {
  q_kind : string;
  q_name : option string;
  q_class : option string;
  q_type : option string;
  q_id : string;
  q_remote_ip : option string;
  q_ttl : Z
}.

(** [query[key]]; [None] is a missing key. *)
Definition query_get (q : Query) (key : string) : option pyval :=
  if String.eqb key "kind" then Some (PyStr (q_kind q))
  else if String.eqb key "name" then Some (of_opt (q_name q))
  else if String.eqb key "class" then Some (of_opt (q_class q))
  else if String.eqb key "type" then Some (of_opt (q_type q))
  else if String.eqb key "id" then Some (PyStr (q_id q))
  else if String.eqb key "remote_ip" then Some (of_opt (q_remote_ip q))
  else if String.eqb key "ttl" then Some (PyInt (q_ttl q))
  else None.

(** ** [fmt % query]

    The scanner reads the format left to right, as CPython does.  After a
    [%] it accepts [%] (a literal percent sign) and [(key)s] (the string of
    [query[key]]); a format that ends inside a conversion raises
    [ValueError], a missing key raises [KeyError] as soon as the key is
    closed.  Flags, widths, nested parentheses and the other conversion
    types are [Unmodelled]. *)

Inductive fmt_state :=
| Plain
| Percent
| InKey (acc : string)
| Conv (v : pyval).

Fixpoint format_from (st : fmt_state) (fmt : string) (q : Query)
  : outcome string :=
  match fmt with
  | EmptyString =>
      match st with
      | Plain => Returns EmptyString
      | _ => Raises ValueError
      end
  | String c r =>
      match st with
      | Plain =>
          if Ascii.eqb c "%" then format_from Percent r q
          else omap (String c) (format_from Plain r q)
      | Percent =>
          if Ascii.eqb c "%" then omap (String c) (format_from Plain r q)
          else if Ascii.eqb c "(" then format_from (InKey EmptyString) r q
          else Unmodelled
      | InKey acc =>
          if Ascii.eqb c ")" then
            match query_get q acc with
            | Some v => format_from (Conv v) r q
            | None => Raises KeyError
            end
          else if Ascii.eqb c "(" then Unmodelled
          else format_from (InKey (acc ++ String c EmptyString)) r q
      | Conv v =>
          if Ascii.eqb c "s" then omap (append (py_str v)) (format_from Plain r q)
          else Unmodelled
      end
  end.

Definition py_format (fmt : string) (q : Query) : outcome string :=
  format_from Plain fmt q.

(** ** Record formatters *)

Definition soa_record (query : Query) : outcome string :=
  let reply := DOMAIN ++ "." ++ TAB in
  let reply := reply ++ "%(class)s" ++ TAB in
  let reply := reply ++ "SOA" ++ TAB in
  let reply := reply ++ "%(ttl)s" ++ TAB in
  let reply := reply ++ "-1" ++ TAB in
  let reply := reply ++ "localhost. " in
  let reply := reply ++ "support.measurementlab.net. " in
  let reply := reply ++ "2013092700 1800 3600 604800 3600" ++ LF in
  py_format reply query.

Definition a_record (query : Query) (ipaddr : string) : outcome string :=
  let reply := "%(name)s" ++ TAB in
  let reply := reply ++ "%(class)s" ++ TAB in
  let reply := reply ++ "A" ++ TAB in
  let reply := reply ++ "%(ttl)s" ++ TAB in
  let reply := reply ++ "%(id)s" ++ TAB in
  let reply := reply ++ ipaddr ++ LF in
  py_format reply query.

Definition ns_record (query : Query) (host : string) : outcome string :=
  let reply := DOMAIN ++ TAB in
  let reply := reply ++ "%(class)s" ++ TAB in
  let reply := reply ++ "NS" ++ TAB in
  let reply := reply ++ "%(ttl)s" ++ TAB in
  let reply := reply ++ "%(id)s" ++ TAB in
  let reply := reply ++ host ++ LF in
  py_format reply query.

(** ** The world outside the process *)

Inductive event :=
| Write (s : string)
| Flush.

(** A parsed JSON document.  [JNum] stands for any JSON number: the
    resolver applies no operation that tells an integer from a float. *)
Inductive json :=
| JNull
| JBool (b : bool)
| JNum (n : Z)
| JStr (s : string)
| JArr (l : list json)
| JObj (m : list (string * json)).

(** What [open] hands back: a response whose body [json.load] rejects, or
    one whose body parses to a document. *)
Inductive Response :=
| BodyNotJson
| BodyJson (doc : json).

(** What one request to the naming service comes to: [open] raises
    (unreachable host, HTTP error status, socket error) or a response
    arrives. *)
Inductive Lookup :=
| OpenFails
| Opens (resp : Response).

Record Request := mkRequest {
  req_url : string;
  req_user_agent : string
}.

Record World := mkWorld {
  stdin : string;                (* bytes not read yet *)
  stdout : list event;           (* writes and flushes so far, oldest first *)
  ns_answers : list Lookup;      (* what the next requests will come to *)
  requests : list Request;       (* requests sent so far, oldest first *)
  donar_txt : option string      (* /etc/donar.txt; None when unreadable *)
}.

(** What Python supplies and the source does not fix: the host name read at
    import time, and [str] of a dictionary or list, whose layout depends on
    the interpreter's hashing. *)
Record Env := mkEnv {
  LOCAL_HOSTNAME : string;
  str_json : json -> string;
  str_query : Query -> string
}.

(** ** Computations: state passing with exceptions *)

Definition M (A : Type) : Type := World -> outcome A * World.

Definition ret {A} (a : A) : M A := fun w => (Returns a, w).
Definition raise {A} (e : exn) : M A := fun w => (Raises e, w).
Definition unmodelled {A} : M A := fun w => (Unmodelled, w).

Definition bind {A B} (m : M A) (f : A -> M B) : M B :=
  fun w =>
    match m w with
    | (Returns a, w') => f a w'
    | (Raises e, w') => (Raises e, w')
    | (Unmodelled, w') => (Unmodelled, w')
    end.

Notation "x <- m ;; k" := (bind m (fun x => k))
  (at level 61, m at next level, right associativity).
Notation "m ;; k" := (bind m (fun _ => k))
  (at level 61, right associativity).

(** A pure call that may raise. *)
Definition lift {A} (o : outcome A) : M A := fun w => (o, w).

(** [try: m  except: h] with a bare [except]. *)
Definition try_except {A} (m : M A) (h : M A) : M A :=
  fun w =>
    match m w with
    | (Raises _, w') => h w'
    | r => r
    end.

Definition emit (e : event) : M unit :=
  fun w => (Returns tt,
            mkWorld (stdin w) (stdout w ++ [e])%list (ns_answers w)
                    (requests w) (donar_txt w)).

Definition stdout_write (s : string) : M unit := emit (Write s).
Definition stdout_flush : M unit := emit Flush.

Definition stdin_readline : M string :=
  fun w => let (l, rest) := read_line (stdin w) in
           (Returns l,
            mkWorld rest (stdout w) (ns_answers w) (requests w) (donar_txt w)).

(** [urllib2.build_opener().open(request)]: the request is recorded and
    the next answer of the service is consumed.  A service with no answer
    left is unreachable. *)
Definition urlopen (r : Request) : M Response :=
  fun w =>
    let w' l := mkWorld (stdin w) (stdout w) l (requests w ++ [r])%list
                        (donar_txt w) in
    match ns_answers w with
    | Opens resp :: l => (Returns resp, w' l)
    | OpenFails :: l => (Raises IOError, w' l)
    | [] => (Raises IOError, w' [])
    end.

(** [json.load(resp)] *)
Definition json_load (resp : Response) : M json :=
  match resp with
  | BodyJson doc => ret doc
  | BodyNotJson => raise ValueError
  end.

(** [open(DONAR_HOSTS, 'r').readlines()] *)
Definition open_readlines : M (list string) :=
  fun w =>
    match donar_txt w with
    | Some content => (Returns (read_lines content), w)
    | None => (Raises IOError, w)
    end.

(** A name that is bound neither in the function, nor in the module, nor
    among the builtins. *)
Definition unbound_name {A} : M A := raise NameError.

Fixpoint for_each {A} (l : list A) (body : A -> M unit) : M unit :=
  match l with
  | [] => ret tt
  | x :: r => body x ;; for_each r body
  end.

(** ** Logging and replies *)

Definition log_msg (msg : option string) : M unit :=
  match msg with
  | None => ret tt
  | Some msg => stdout_write ("LOG" ++ TAB ++ replace "009" " " msg)
  end.

Definition data_msg (msg : option string) : M unit :=
  match msg with
  | None => ret tt
  | Some msg =>
      log_msg (Some ("REPLY: " ++ msg)) ;;
      stdout_write ("DATA" ++ TAB ++ msg)
  end.

(** ** Query classifier *)

Definition query_to_dict (query_str : string) : M (option Query) :=
  let fields := split "009" query_str in
  match fields with
  | [kind; qname; qclass; qtype; id; ip] =>
      ret (Some (mkQuery kind (Some qname) (Some qclass) (Some qtype) id
                         (Some ip) RECORD_TTL))
  | [kind; id] =>
      ret (Some (mkQuery kind None None None id None RECORD_TTL))
  | _ =>
      let msg := "FAILED to parse query: " ++ query_str ++ LF in
      log_msg (Some msg) ;;
      ret None
  end.

(** ** Naming resolver *)

Fixpoint assoc (key : string) (m : list (string * json)) : option json :=
  match m with
  | [] => None
  | (k, v) :: r => if String.eqb k key then Some v else assoc key r
  end.

Definition is_str (key : string) (v : json) : bool :=
  match v with
  | JStr s => String.eqb s key
  | _ => false
  end.

(** ['ip' not in ns_resp] *)
Definition not_in (key : string) (ns_resp : json) : outcome bool :=
  match ns_resp with
  | JObj m => Returns (match assoc key m with None => true | Some _ => false end)
  | JArr l => Returns (negb (existsb (is_str key) l))
  | JStr s => Returns (negb (contains key s))
  | _ => Raises TypeError
  end.

(** [ns_resp['ip']], reached only when the key is in [ns_resp]. *)
Definition getitem (ns_resp : json) (key : string) : outcome json :=
  match ns_resp with
  | JObj m => match assoc key m with
              | Some v => Returns v
              | None => Raises KeyError
              end
  | _ => Raises TypeError
  end.

(** [len(v)] *)
Definition py_len (v : json) : outcome nat :=
  match v with
  | JArr l => Returns (List.length l)
  | JStr s => Returns (String.length s)
  | JObj m => Returns (List.length m)
  | _ => Raises TypeError
  end.

(** [v[0]], reached only when [len(v)] is not zero. *)
Definition getitem0 (v : json) : outcome json :=
  match v with
  | JArr (x :: _) => Returns x
  | JStr (String c _) => Returns (JStr (String c EmptyString))
  | JObj _ => Raises KeyError
  | _ => Raises TypeError
  end.

(** ["...%s" % ns_resp] for a document that got through [not_in]. *)
Definition str_doc (env : Env) (ns_resp : json) : outcome string :=
  match ns_resp with
  | JStr s => if is_ascii s then Returns s else Unmodelled
  | _ => Returns (str_json env ns_resp)
  end.

Definition opt_ascii (o : option string) : bool :=
  match o with
  | Some s => is_ascii s
  | None => true
  end.

Definition query_is_ascii (q : Query) : bool :=
  is_ascii (q_kind q) && opt_ascii (q_name q) && opt_ascii (q_class q) &&
  opt_ascii (q_type q) && is_ascii (q_id q) && opt_ascii (q_remote_ip q).

Definition missing_ip (env : Env) (ns_resp : json) : M (option string) :=
  shown <- lift (str_doc env ns_resp) ;;
  let msg := "mlab-ns response missing 'ip' field: " ++ shown ++ LF in
  log_msg (Some msg) ;;
  ret None.

Definition mlabns_a_record (env : Env) (query : Query) : M (option string) :=
  r <- try_except
         (let url := "http://ns.measurementlab.net/ndt?ip=" ++
                     py_str (of_opt (q_remote_ip query)) ++ "&format=json" in
          let request :=
            mkRequest url ("nodar/1.0 from " ++ LOCAL_HOSTNAME env) in
          resp <- urlopen request ;;
          ret (inl resp))
         ((* msg = msg_fmt % (ip, str(e)): neither name is bound *)
          msg <- unbound_name ;;
          log_msg (Some msg) ;;
          ret (inr None)) ;;
  match r with
  | inr result => ret result
  | inl resp =>
      ns_resp <- json_load resp ;;
      absent <- lift (not_in "ip" ns_resp) ;;
      if absent then missing_ip env ns_resp
      else
        v <- lift (getitem ns_resp "ip") ;;
        n <- lift (py_len v) ;;
        if Nat.eqb n 0 then missing_ip env ns_resp
        else
          ndt_ip <- lift (getitem0 v) ;;
          match ndt_ip with
          | JStr ipaddr =>
              if is_ascii ipaddr && query_is_ascii query then
                reply <- lift (a_record query ipaddr) ;;
                ret (Some reply)
              else unmodelled
          | _ => raise TypeError      (* ipaddr+"\n" *)
          end
  end.

(** ** NS host source *)

Definition DONAR_HOSTS : string := "/etc/donar.txt".

Definition handle_ns_records (env : Env) (query : Query) : M unit :=
  r <- try_except
         (host_list <- open_readlines ;;
          ret (Some host_list))
         (log_msg (Some ("Failed to open: " ++ DONAR_HOSTS ++ LF)) ;;
          ret None) ;;
  match r with
  | None => ret tt
  | Some host_list =>
      try_except
        (for_each (firstn 6 host_list) (fun host =>
           reply <- lift (ns_record query ("utility.mlab." ++ strip host)) ;;
           data_msg (Some reply)))
        (log_msg (Some ("Failed on: " ++ str_query env query ++ LF)))
  end.

(** ** Session loop *)

Definition opt_eqb (o : option string) (s : string) : bool :=
  match o with
  | Some x => String.eqb x s
  | None => false
  end.

(** [x in l] for a field that may be [None]. *)
Definition opt_in (o : option string) (l : list string) : bool :=
  existsb (opt_eqb o) l.

(** The body of the second loop of [main], after the end-of-file test. *)
Definition serve_line (env : Env) (query_str : string) : M unit :=
  let query_str := strip query_str in
  query <- query_to_dict query_str ;;
  log_msg (Some ("INPUT: " ++ query_str ++ LF)) ;;
  match query with
  | Some query =>
      if String.eqb (q_kind query) "Q" && opt_in (q_name query) NDT_HOSTLIST
      then
        (if opt_eqb (q_type query) "SOA" then
           reply <- lift (soa_record query) ;;
           data_msg (Some reply)
         else ret tt) ;;
        (if opt_in (q_type query) ["ANY"; "A"] then
           (reply <- mlabns_a_record env query ;; data_msg reply) ;;
           (reply <- mlabns_a_record env query ;; data_msg reply)
         else ret tt) ;;
        (if opt_in (q_type query) ["ANY"; "NS"] then
           handle_ns_records env query
         else ret tt)
      else ret tt
  | None => ret tt
  end ;;
  stdout_write ("END" ++ LF) ;;
  stdout_flush.

Inductive phase :=
| AWAITING_HANDSHAKE
| SERVING
| TERMINATED               (* [main] returned *)
| CRASHED (e : exn)          (* an exception left [main] *)
| OUTSIDE_MODEL.

Record Session := mkSession {
  current : phase;
  world : World
}.

(** One turn of the first loop of [main]; [true] is the [break]. *)
Definition handshake_turn : M bool :=
  helo <- stdin_readline ;;
  if contains "HELO" helo then
    stdout_write ("OK" ++ TAB ++ "M-Lab Backend" ++ LF) ;;
    stdout_flush ;;
    ret true
  else
    (* print "FAIL": the statement adds the newline *)
    stdout_write ("FAIL" ++ LF) ;;
    ret false.

(** One turn of the second loop of [main]; [true] is the [break]. *)
Definition serving_turn (env : Env) : M bool :=
  query_str <- stdin_readline ;;
  if String.eqb query_str "" then ret true
  else serve_line env query_str ;; ret false.

Definition after (m : M bool) (w : World) (stay leave : phase) : Session :=
  match m w with
  | (Returns false, w') => mkSession stay w'
  | (Returns true, w') => mkSession leave w'
  | (Raises e, w') => mkSession (CRASHED e) w'
  | (Unmodelled, w') => mkSession OUTSIDE_MODEL w'
  end.

Definition step (env : Env) (s : Session) : Session :=
  match current s with
  | AWAITING_HANDSHAKE =>
      after handshake_turn (world s) AWAITING_HANDSHAKE SERVING
  | SERVING => after (serving_turn env) (world s) SERVING TERMINATED
  | _ => s
  end.

Fixpoint run (env : Env) (turns : nat) (s : Session) : Session :=
  match turns with
  | O => s
  | S n => run env n (step env s)
  end.

Definition main (env : Env) (turns : nat) (w : World) : Session :=
  run env turns (mkSession AWAITING_HANDSHAKE w).

(** ** Observations used in the statements *)

(** The world after more events went to [stdout]. *)
Definition add_out (evs : list event) (w : World) : World :=
  mkWorld (stdin w) (stdout w ++ evs)%list (ns_answers w) (requests w)
          (donar_txt w).

(** The world after one request was sent and answered. *)
Definition answered (r : Request) (left : list Lookup) (w : World) : World :=
  mkWorld (stdin w) (stdout w) left (requests w ++ [r])%list (donar_txt w).

(** The world after one line was read. *)
Definition consumed (rest : string) (w : World) : World :=
  mkWorld rest (stdout w) (ns_answers w) (requests w) (donar_txt w).

Definition log_line (msg : string) : event :=
  Write ("LOG" ++ TAB ++ replace "009" " " msg).

(** The two writes of one [data_msg]. *)
Definition data_events (msg : string) : list event :=
  [log_line ("REPLY: " ++ msg); Write ("DATA" ++ TAB ++ msg)].

Definition is_data (e : event) : bool :=
  match e with
  | Write s => prefix ("DATA" ++ TAB) s
  | Flush => false
  end.

Definition is_end (e : event) : bool :=
  match e with
  | Write s => String.eqb s ("END" ++ LF)
  | Flush => false
  end.

Definition count (p : event -> bool) (evs : list event) : nat :=
  List.length (filter p evs).

Definition quiet_world : World := mkWorld "" [] [] [] None.

Definition test_env : Env :=
  mkEnv "nodar1" (fun _ => "{}") (fun _ => "{}").

(** A question for the zone itself, as pdns sends it. *)
Definition zone_question (qtype : string) : Query :=
  mkQuery "Q" (Some DOMAIN) (Some "IN") (Some qtype) "7" (Some "10.0.0.1")
          RECORD_TTL.

Definition zone_question_line (qtype : string) : string :=
  "Q" ++ TAB ++ DOMAIN ++ TAB ++ "IN" ++ TAB ++ qtype ++ TAB ++ "7" ++ TAB ++
  "10.0.0.1" ++ LF.

Definition three_fields : string := "a" ++ TAB ++ "b" ++ TAB ++ "c".

(** No line among the next [n] reads has the handshake token. *)
Fixpoint no_token_in_first (n : nat) (input : string) : bool :=
  match n with
  | O => true
  | S k =>
      negb (contains "HELO" (fst (read_line input))) &&
      no_token_in_first k (snd (read_line input))
  end.

(** The input left after [n] reads. *)
Fixpoint after_lines (n : nat) (input : string) : string :=
  match n with
  | O => input
  | S k => after_lines k (snd (read_line input))
  end.

(** The request [mlabns_a_record] sends for a query. *)
Definition request_for (env : Env) (q : Query) : Request :=
  mkRequest ("http://ns.measurementlab.net/ndt?ip=" ++
             py_str (of_opt (q_remote_ip q)) ++ "&format=json")
            ("nodar/1.0 from " ++ LOCAL_HOSTNAME env).

(** The A and NS lines of section 6 of the specification. *)
Definition a_line (q : Query) (ipaddr : string) : string :=
  py_str (of_opt (q_name q)) ++ TAB ++ py_str (of_opt (q_class q)) ++ TAB ++
  "A" ++ TAB ++ str_int (q_ttl q) ++ TAB ++ q_id q ++ TAB ++ ipaddr ++ LF.

Definition ns_line (q : Query) (host : string) : string :=
  DOMAIN ++ TAB ++ py_str (of_opt (q_class q)) ++ TAB ++ "NS" ++ TAB ++
  str_int (q_ttl q) ++ TAB ++ q_id q ++ TAB ++ host ++ LF.

(** How a response settles without an exception: [Some (Some ip)] when the
    document is an object whose "ip" list begins with the string [ip],
    [Some None] when the object has no "ip" or an empty list.  Any other
    response is [None] here. *)
Definition resolution (resp : Response) : option (option string) :=
  match resp with
  | BodyJson (JObj m) =>
      match assoc "ip" m with
      | None => Some None
      | Some (JArr []) => Some None
      | Some (JArr (JStr ip :: _)) =>
          if no_percent ip && is_ascii ip then Some (Some ip) else None
      | Some _ => None
      end
  | _ => None
  end.

Definition doc_of (resp : Response) : json :=
  match resp with
  | BodyJson doc => doc
  | BodyNotJson => JNull
  end.

(** What one settled lookup adds to [stdout]. *)
Definition answer_events (env : Env) (q : Query) (resp : Response)
  (r : option string) : list event :=
  match r with
  | Some ip => data_events (a_line q ip)
  | None =>
      [log_line ("mlab-ns response missing 'ip' field: " ++
                 str_json env (doc_of resp) ++ LF)]
  end.


(** What [handle_ns_records] adds to [stdout] for the lines it uses. *)
Definition ns_events (q : Query) (hosts : list string) : list event :=
  flat_map (fun host => data_events (ns_line q ("utility.mlab." ++ strip host)))
           hosts.

Definition peer_events (q : Query) (file : option string) : list event :=
  match file with
  | Some content => ns_events q (firstn 6 (read_lines content))
  | None => [log_line ("Failed to open: " ++ DONAR_HOSTS ++ LF)]
  end.

(** The lines [handle_ns_records] uses have no percent sign once trimmed. *)
Definition hosts_plain (file : option string) : bool :=
  match file with
  | Some content =>
      forallb (fun host => no_percent (strip host))
              (firstn 6 (read_lines content))
  | None => true
  end.

(** A session about to read one A question while the naming service cannot
    be reached; a SOA question waits behind it. *)
Definition unreachable_world : World :=
  mkWorld (zone_question_line "A" ++ zone_question_line "SOA") []
          [OpenFails; OpenFails] [] None.

(** A host list of seven lines whose first line is blank. *)
Definition blank_first : string :=
  LF ++ "h1" ++ LF ++ "h2" ++ LF ++ "h3" ++ LF ++ "h4" ++ LF ++ "h5" ++ LF ++
  "h6" ++ LF.

Definition with_hosts (content : string) : World :=
  mkWorld "" [] [] [] (Some content).

(** Both lookups of the next question succeed, and one peer host is
    listed. *)
Definition two_answers_world : World :=
  mkWorld "" []
    [Opens (BodyJson (JObj [("ip", JArr [JStr "192.0.2.1"])]));
     Opens (BodyJson (JObj [("ip", JArr [JStr "192.0.2.2"])]))]
    [] (Some ("host1" ++ LF)).

(** A write tagged LOG or DATA. *)
Definition is_reply (e : event) : bool :=
  match e with
  | Write s => prefix ("LOG" ++ TAB) s || prefix ("DATA" ++ TAB) s
  | Flush => false
  end.

Definition is_flush (e : event) : bool :=
  match e with
  | Flush => true
  | Write _ => false
  end.

(** Whatever its outcome, a computation only adds LOG and DATA writes to
    [stdout]. *)
Definition replies_only {A} (m : M A) : Prop :=
  forall w o w',
    m w = (o, w') ->
    exists evs, stdout w' = (stdout w ++ evs)%list /\ forallb is_reply evs = true.

(** ** Further observations *)

Definition no_tab (s : string) : bool :=
  forall_chars (fun c => negb (Ascii.eqb c "009")) s.

(** The fields a query was parsed from: six for a question, two for a
    control query. *)
Definition query_fields (q : Query) : list string :=
  match q_name q, q_class q, q_type q, q_remote_ip q with
  | Some n, Some c, Some t, Some r => [q_kind q; n; c; t; q_id q; r]
  | _, _, _, _ => [q_kind q; q_id q]
  end.

(** The control query of a two-field line. *)
Definition control_query (kind id : string) : Query :=
  mkQuery kind None None None id None RECORD_TTL.


Definition soa_line (q : Query) : string :=
  DOMAIN ++ "." ++ TAB ++ py_str (of_opt (q_class q)) ++ TAB ++ "SOA" ++ TAB ++
  str_int (q_ttl q) ++ TAB ++ "-1" ++ TAB ++
  "localhost. support.measurementlab.net. " ++
  "2013092700 1800 3600 604800 3600" ++ LF.

(** [R] relates the world before a computation to the world after it,
    whatever the outcome. *)
Definition keeps (R : World -> World -> Prop) {A} (m : M A) : Prop :=
  forall w o w', m w = (o, w') -> R w w'.

(** Nothing but [stdout] differs. *)
Definition only_stdout (w w' : World) : Prop :=
  stdin w' = stdin w /\ ns_answers w' = ns_answers w /\
  requests w' = requests w /\ donar_txt w' = donar_txt w.

(** The unread input and the host list are the same. *)
Definition same_input (w w' : World) : Prop :=
  stdin w' = stdin w /\ donar_txt w' = donar_txt w.

Definition never_raises {A} (m : M A) : Prop :=
  forall w e, fst (m w) <> Raises e.

(** The exception a response makes the resolver raise after [open]
    succeeded, following the operations of [mlabns_a_record] in order:
    [json.load], ['ip' not in], [ns_resp['ip']], [len], [[0]], [+ "\n"]. *)
Definition raised_by (resp : Response) : option exn :=
  match resp with
  | BodyNotJson => Some ValueError
  | BodyJson (JNull | JBool _ | JNum _) => Some TypeError
  | BodyJson (JArr l) =>
      if existsb (is_str "ip") l then Some TypeError else None
  | BodyJson (JStr s) => if contains "ip" s then Some TypeError else None
  | BodyJson (JObj m) =>
      match assoc "ip" m with
      | Some (JNull | JBool _ | JNum _) => Some TypeError
      | Some (JObj (_ :: _)) => Some KeyError
      | Some (JArr ((JNull | JBool _ | JNum _ | JArr _ | JObj _) :: _)) =>
          Some TypeError
      | _ => None
      end
  end.

(** A host list whose second line makes [ns_record] raise. *)
Definition bad_second_line : string :=
  "h1" ++ LF ++ "%(x)s" ++ LF ++ "h3" ++ LF.

(** A serving session with a SOA question and an MX question to read, and
    its world two turns later. *)
Definition two_lines_world : World :=
  mkWorld (zone_question_line "SOA" ++ zone_question_line "MX") [] [] [] None.

Definition two_lines_served : World :=
  Eval vm_compute in
    world (run test_env 2 (mkSession SERVING two_lines_world)).

(** ** Lines of the output *)













(** ** Requests *)

Definition lookup_url (rip : string) : string :=
  "http://ns.measurementlab.net/ndt?ip=" ++ rip ++ "&format=json".

Fixpoint last_char (s : string) : option ascii :=
  match s with
  | EmptyString => None
  | String c r =>
      match last_char r with
      | Some x => Some x
      | None => Some c
      end
  end.

(** The text ends in a whitespace character. *)
Definition blank_ended (s : string) : bool :=
  match last_char s with
  | Some c => is_space c
  | None => false
  end.

(** From [w] to [w'] the requests in [sent] were sent, all of them to
    [rq], and no other. *)
Definition asked (rq : Request) (sent : list Request) (w w' : World) : Prop :=
  requests w' = (requests w ++ sent)%list /\ Forall (eq rq) sent.

Definition asks (rq : Request) (w w' : World) : Prop :=
  exists sent, asked rq sent w w'.

(** One request more, to [rq]. *)
Definition one_more (rq : Request) (w w' : World) : Prop :=
  requests w' = (requests w ++ [rq])%list.




(** * Properties *)

(** ** Strings *)

Lemma append_empty_r (s : string) : s ++ "" = s.
Proof. induction s as [|c s IH]; simpl; [reflexivity | now rewrite IH]. Qed.

Lemma append_assoc (a b c : string) : (a ++ b) ++ c = a ++ (b ++ c).
Proof. induction a as [|x a IH]; simpl; [reflexivity | now rewrite IH]. Qed.

Lemma prefix_app (a b : string) :
  prefix a b = true <-> exists t, b = a ++ t.
Proof.
  revert b; induction a as [|x a IH]; intros b.
  - split; [intros _; now exists b | intros _; now destruct b].
  - destruct b as [|y b]; simpl.
    + split; [discriminate | intros [t Ht]; discriminate].
    + destruct (ascii_dec x y) as [->|Hxy].
      * rewrite IH. split; intros [t Ht]; exists t;
          [now rewrite Ht | now inversion Ht].
      * split; [discriminate | intros [t Ht]; inversion Ht; congruence].
Qed.

(** [contains] is Python's substring test. *)
Lemma contains_spec (sub s : string) :
  contains sub s = true <-> exists pre post, s = pre ++ sub ++ post.
Proof.
  induction s as [|c s IH].
  - cbn [contains]. rewrite orb_false_r, prefix_app. split.
    + intros [t Ht]. now exists "", t.
    + intros [pre [post H]]. destruct pre; simpl in H.
      * now exists post.
      * discriminate.
  - cbn [contains]. rewrite orb_true_iff, IH, prefix_app. split.
    + intros [[t Ht] | [pre [post H]]].
      * now exists "", t.
      * exists (String c pre), post. simpl. now rewrite H.
    + intros [pre [post H]]. destruct pre as [|x pre]; simpl in H.
      * left. now exists post.
      * right. inversion H. now exists pre, post.
Qed.

Lemma split_nonempty (sep : ascii) (s : string) : split sep s <> [].
Proof.
  destruct s as [|c s]; simpl; [discriminate|].
  destruct (Ascii.eqb c sep); [discriminate|].
  destruct (split sep s); discriminate.
Qed.

(** Joining the fields with the separator gives the line back. *)
Lemma split_concat (sep : ascii) (s : string) :
  String.concat (String sep "") (split sep s) = s.
Proof.
  induction s as [|c s IH]; [reflexivity|].
  simpl. destruct (Ascii.eqb_spec c sep) as [->|Hne].
  - pose proof (split_nonempty sep s) as Hn.
    cbn [String.concat]. destruct (split sep s) as [|f fs]; [contradiction|].
    simpl. simpl in IH. now rewrite IH.
  - pose proof (split_nonempty sep s) as Hn.
    destruct (split sep s) as [|f fs]; [contradiction|].
    destruct fs as [|g fs]; simpl in *; now rewrite IH.
Qed.

Lemma replace_app (a b : ascii) (s t : string) :
  replace a b (s ++ t) = replace a b s ++ replace a b t.
Proof. induction s as [|c s IH]; simpl; [reflexivity | now rewrite IH]. Qed.


(** ** The [%] operator on text without conversions *)

Lemma format_plain_app (s t : string) (q : Query) :
  no_percent s = true ->
  format_from Plain (s ++ t) q = omap (append s) (format_from Plain t q).
Proof.
  unfold no_percent. induction s as [|c s IH]; intros H; simpl in *.
  - now destruct (format_from Plain t q).
  - apply andb_true_iff in H as [Hc Hs].
    destruct (Ascii.eqb c "%"); [discriminate|].
    rewrite (IH Hs). now destruct (format_from Plain t q).
Qed.

(** ** Record formatter *)

Arguments str_int : simpl never.

Lemma ns_record_plain (q : Query) (host : string) :
  no_percent host = true ->
  ns_record q host =
  Returns (DOMAIN ++ TAB ++ py_str (of_opt (q_class q)) ++ TAB ++ "NS" ++ TAB ++
           str_int (q_ttl q) ++ TAB ++ q_id q ++ TAB ++ host ++ LF).
Proof.
  intros H. unfold ns_record, py_format. cbn.
  rewrite (format_plain_app host LF q H). cbn.
  now rewrite ?append_assoc.
Qed.

Lemma a_record_plain (q : Query) (ipaddr : string) :
  no_percent ipaddr = true ->
  a_record q ipaddr =
  Returns (py_str (of_opt (q_name q)) ++ TAB ++ py_str (of_opt (q_class q)) ++
           TAB ++ "A" ++ TAB ++ str_int (q_ttl q) ++ TAB ++ q_id q ++ TAB ++
           ipaddr ++ LF).
Proof.
  intros H. unfold a_record, py_format. cbn.
  rewrite (format_plain_app ipaddr LF q H). cbn.
  now rewrite ?append_assoc.
Qed.

Lemma soa_record_line (q : Query) :
  soa_record q =
  Returns (DOMAIN ++ "." ++ TAB ++ py_str (of_opt (q_class q)) ++ TAB ++ "SOA" ++
           TAB ++ str_int (q_ttl q) ++ TAB ++ "-1" ++ TAB ++
           "localhost. support.measurementlab.net. " ++
           "2013092700 1800 3600 604800 3600" ++ LF).
Proof.
  unfold soa_record, py_format. cbn. now rewrite ?append_assoc.
Qed.

(** C3: for every query with class "IN" and ttl 300, whatever its other
    fields, [soa_record] returns the zone name with a trailing dot, the
    class, SOA, the TTL, the -1 token and the fixed administrative body,
    byte for byte. *)
Theorem soa_record_IN_300 (q : Query) :
  q_class q = Some "IN" ->
  q_ttl q = 300%Z ->
  soa_record q =
  Returns ("donar.measurement-lab.org." ++ TAB ++ "IN" ++ TAB ++ "SOA" ++ TAB ++
           "300" ++ TAB ++ "-1" ++ TAB ++
           "localhost. support.measurementlab.net. 2013092700 1800 3600 604800 3600"
           ++ LF).
Proof.
  intros Hc Ht. rewrite soa_record_line, Hc, Ht. reflexivity.
Qed.

Lemma soa_record_IN_300_witness :
  q_class (zone_question "SOA") = Some "IN" /\
  q_ttl (zone_question "SOA") = 300%Z /\
  soa_record (zone_question "SOA") =
  Returns ("donar.measurement-lab.org." ++ TAB ++ "IN" ++ TAB ++ "SOA" ++ TAB ++
           "300" ++ TAB ++ "-1" ++ TAB ++
           "localhost. support.measurementlab.net. 2013092700 1800 3600 604800 3600"
           ++ LF).
Proof.
  split; [reflexivity|]. split; [reflexivity|].
  apply (soa_record_IN_300 (zone_question "SOA")); reflexivity.
Defined.

(** C4, as stated, fails twice: the A renderer writes the name of the query
    as it came, so an A record for the zone carries no dot after the zone
    name; and a host name is read as part of the format, so [%%] in it comes
    out as a single percent sign. *)
Lemma ns_record_claim_fails :
  a_record (zone_question "A") "192.168.1.2" =
    Returns ("donar.measurement-lab.org" ++ TAB ++ "IN" ++ TAB ++ "A" ++ TAB ++
             "300" ++ TAB ++ "7" ++ TAB ++ "192.168.1.2" ++ LF) /\
  ns_record (zone_question "NS") "utility.mlab.a%%b" =
    Returns ("donar.measurement-lab.org" ++ TAB ++ "IN" ++ TAB ++ "NS" ++ TAB ++
             "300" ++ TAB ++ "7" ++ TAB ++ "utility.mlab.a%b" ++ LF).
Proof. split; reflexivity. Qed.

(** C4, amended: for a host name without percent sign [ns_record] returns
    the zone name with no trailing dot, the class, NS, the TTL, the id and
    the host name; [soa_record] puts a dot after the zone name, [a_record]
    starts with the name of the query unchanged; and the instance of the
    claim holds to the byte. *)
Theorem ns_record_zone_without_dot (q : Query) (host : string) :
  no_percent host = true ->
  ns_record q host =
    Returns (DOMAIN ++ TAB ++ py_str (of_opt (q_class q)) ++ TAB ++ "NS" ++ TAB ++
             str_int (q_ttl q) ++ TAB ++ q_id q ++ TAB ++ host ++ LF) /\
  (exists rest, soa_record q = Returns (DOMAIN ++ "." ++ TAB ++ rest)) /\
  (forall ipaddr, no_percent ipaddr = true ->
     exists rest,
       a_record q ipaddr = Returns (py_str (of_opt (q_name q)) ++ TAB ++ rest)) /\
  (q_class q = Some "IN" -> q_ttl q = 300%Z -> q_id q = "7" ->
   ns_record q "utility.mlab.host1.example.org" =
     Returns ("donar.measurement-lab.org" ++ TAB ++ "IN" ++ TAB ++ "NS" ++ TAB ++
              "300" ++ TAB ++ "7" ++ TAB ++ "utility.mlab.host1.example.org" ++
              LF)).
Proof.
  intros H. split; [now apply ns_record_plain|]. split; [|split].
  - rewrite soa_record_line. eexists. reflexivity.
  - intros ipaddr Hip. rewrite (a_record_plain q ipaddr Hip). eexists.
    reflexivity.
  - intros Hc Ht Hi. rewrite ns_record_plain by reflexivity.
    rewrite Hc, Ht, Hi. reflexivity.
Qed.

Lemma ns_record_zone_without_dot_witness :
  no_percent "utility.mlab.host1.example.org" = true /\
  ns_record (zone_question "NS") "utility.mlab.host1.example.org" =
    Returns ("donar.measurement-lab.org" ++ TAB ++ "IN" ++ TAB ++ "NS" ++ TAB ++
             "300" ++ TAB ++ "7" ++ TAB ++ "utility.mlab.host1.example.org" ++
             LF).
Proof.
  split; [reflexivity|].
  apply (ns_record_zone_without_dot (zone_question "NS")
           "utility.mlab.host1.example.org"); reflexivity.
Defined.

(** ** Running computations *)

Lemma bind_returns {A B} (m : M A) (f : A -> M B) (w w' : World) (a : A) :
  m w = (Returns a, w') -> bind m f w = f a w'.
Proof. intros H. unfold bind. now rewrite H. Qed.

Lemma bind_raises {A B} (m : M A) (f : A -> M B) (w w' : World) (e : exn) :
  m w = (Raises e, w') -> bind m f w = (Raises e, w').
Proof. intros H. unfold bind. now rewrite H. Qed.

Lemma add_out_nil (w : World) : add_out [] w = w.
Proof. destruct w. unfold add_out. simpl. now rewrite app_nil_r. Qed.

Lemma add_out_add_out (a b : list event) (w : World) :
  add_out b (add_out a w) = add_out (a ++ b)%list w.
Proof. unfold add_out. simpl. now rewrite app_assoc. Qed.

Lemma log_msg_run (msg : string) (w : World) :
  log_msg (Some msg) w = (Returns tt, add_out [log_line msg] w).
Proof. reflexivity. Qed.

Lemma data_msg_run (msg : string) (w : World) :
  data_msg (Some msg) w = (Returns tt, add_out (data_events msg) w).
Proof.
  unfold data_msg. rewrite (bind_returns _ _ _ _ _ (log_msg_run _ w)).
  unfold stdout_write, emit, data_events, add_out. simpl.
  now rewrite <- app_assoc.
Qed.

Lemma data_msg_none (w : World) : data_msg None w = (Returns tt, w).
Proof. reflexivity. Qed.

(** ** Query classifier *)

Lemma query_to_dict_six (line : string) (w : World) (f1 f2 f3 f4 f5 f6 : string) :
  split "009" line = [f1; f2; f3; f4; f5; f6] ->
  query_to_dict line w =
  (Returns (Some (mkQuery f1 (Some f2) (Some f3) (Some f4) f5 (Some f6) 300)), w).
Proof. intros H. unfold query_to_dict. now rewrite H. Qed.

Lemma query_to_dict_two (line : string) (w : World) (f1 f2 : string) :
  split "009" line = [f1; f2] ->
  query_to_dict line w =
  (Returns (Some (mkQuery f1 None None None f2 None 300)), w).
Proof. intros H. unfold query_to_dict. now rewrite H. Qed.

Lemma query_to_dict_other (line : string) (w : World) :
  List.length (split "009" line) <> 2 ->
  List.length (split "009" line) <> 6 ->
  query_to_dict line w =
  (Returns None,
   add_out [log_line ("FAILED to parse query: " ++ line ++ LF)] w).
Proof.
  intros H2 H6. unfold query_to_dict.
  destruct (split "009" line) as [|a [|b [|c [|d [|e [|f [|g l]]]]]]];
    simpl in H2, H6; try congruence; reflexivity.
Qed.

(** C2: a line of exactly six tab-separated fields yields the query whose
    kind, name, class, type, id and remote address are those fields in
    order, with ttl 300; a line of exactly two fields yields the control
    query with kind and id and every other field absent, with ttl 300; any
    other number of fields yields no query. *)
Theorem query_to_dict_by_field_count (line : string) (w : World) :
  (forall f1 f2 f3 f4 f5 f6,
     split "009" line = [f1; f2; f3; f4; f5; f6] ->
     query_to_dict line w =
     (Returns (Some {| q_kind := f1; q_name := Some f2; q_class := Some f3;
                       q_type := Some f4; q_id := f5; q_remote_ip := Some f6;
                       q_ttl := 300 |}), w)) /\
  (forall f1 f2,
     split "009" line = [f1; f2] ->
     query_to_dict line w =
     (Returns (Some {| q_kind := f1; q_name := None; q_class := None;
                       q_type := None; q_id := f2; q_remote_ip := None;
                       q_ttl := 300 |}), w)) /\
  (List.length (split "009" line) <> 6 ->
   List.length (split "009" line) <> 2 ->
   fst (query_to_dict line w) = Returns None).
Proof.
  split; [|split].
  - intros. now apply query_to_dict_six.
  - intros. now apply query_to_dict_two.
  - intros H6 H2. now rewrite query_to_dict_other.
Qed.

Lemma query_to_dict_by_field_count_witness :
  query_to_dict (strip (zone_question_line "A")) quiet_world =
    (Returns (Some (zone_question "A")), quiet_world) /\
  query_to_dict ("HELO" ++ TAB ++ "1") quiet_world =
    (Returns (Some (mkQuery "HELO" None None None "1" None 300)), quiet_world) /\
  fst (query_to_dict "PING" quiet_world) = Returns None.
Proof.
  split; [|split].
  - apply (query_to_dict_by_field_count (strip (zone_question_line "A"))
             quiet_world). reflexivity.
  - apply (query_to_dict_by_field_count ("HELO" ++ TAB ++ "1") quiet_world).
    reflexivity.
  - apply (query_to_dict_by_field_count "PING" quiet_world);
      simpl; discriminate.
Defined.

(** C8, as stated, fails on a line of three fields: [query_to_dict] itself
    writes the log line, so the world after the call differs from the world
    before it, and the tabs of the line are written as spaces, so the line
    is not in the output as it came. *)
Lemma query_to_dict_logs_itself :
  List.length (split "009" three_fields) = 3 /\
  query_to_dict three_fields quiet_world =
    (Returns None,
     add_out [Write ("LOG" ++ TAB ++ "FAILED to parse query: a b c" ++ LF)]
             quiet_world) /\
  contains three_fields
           ("LOG" ++ TAB ++ "FAILED to parse query: a b c" ++ LF) = false /\
  snd (query_to_dict three_fields quiet_world) <> quiet_world.
Proof.
  split; [reflexivity|]. split; [reflexivity|].
  split; [reflexivity|]. discriminate.
Qed.

(** C8, amended: for a line whose number of fields is neither 2 nor 6,
    [query_to_dict] returns no query and itself writes one log line, the
    failure message with the line in which every tab has become a space;
    it changes nothing else. *)
Theorem query_to_dict_malformed (line : string) (w : World) :
  List.length (split "009" line) <> 2 ->
  List.length (split "009" line) <> 6 ->
  query_to_dict line w =
  (Returns None,
   add_out [Write ("LOG" ++ TAB ++ "FAILED to parse query: " ++
                   replace "009" " " line ++ LF)] w).
Proof.
  intros H2 H6. rewrite (query_to_dict_other line w H2 H6).
  unfold log_line. now rewrite !replace_app.
Qed.

Lemma query_to_dict_malformed_witness :
  List.length (split "009" "PING") <> 2 /\
  List.length (split "009" "PING") <> 6 /\
  query_to_dict "PING" quiet_world =
  (Returns None,
   add_out [Write ("LOG" ++ TAB ++ "FAILED to parse query: PING" ++ LF)]
           quiet_world).
Proof.
  split; [simpl; discriminate|]. split; [simpl; discriminate|].
  apply (query_to_dict_malformed "PING" quiet_world); simpl; discriminate.
Defined.

(** ** Handshake *)

Lemma handshake_turn_run (w : World) :
  handshake_turn w =
  if contains "HELO" (fst (read_line (stdin w))) then
    (Returns true,
     add_out [Write ("OK" ++ TAB ++ "M-Lab Backend" ++ LF); Flush]
             (consumed (snd (read_line (stdin w))) w))
  else
    (Returns false,
     add_out [Write ("FAIL" ++ LF)] (consumed (snd (read_line (stdin w))) w)).
Proof.
  unfold handshake_turn, bind, stdin_readline.
  destruct (read_line (stdin w)) as [helo rest]. cbn [fst snd].
  destruct (contains "HELO" helo); unfold add_out, consumed; simpl;
    [now rewrite <- app_assoc | reflexivity].
Qed.

Lemma consumed_add_out (rest : string) (evs : list event) (w : World) :
  consumed rest (add_out evs w) = add_out evs (consumed rest w).
Proof. reflexivity. Qed.

Lemma repeat_snoc {A} (x : A) (n : nat) :
  (x :: repeat x n = repeat x n ++ [x])%list.
Proof. induction n as [|n IH]; simpl; [reflexivity | now rewrite <- IH]. Qed.

Lemma run_without_token (env : Env) (n : nat) (w : World) :
  no_token_in_first n (stdin w) = true ->
  run env n (mkSession AWAITING_HANDSHAKE w) =
  mkSession AWAITING_HANDSHAKE
            (add_out (repeat (Write ("FAIL" ++ LF)) n)
                     (consumed (after_lines n (stdin w)) w)).
Proof.
  revert w. induction n as [|n IH]; intros w H.
  - simpl. rewrite add_out_nil. now destruct w.
  - cbn [no_token_in_first] in H. apply andb_true_iff in H as [Hl Hr].
    apply negb_true_iff in Hl.
    cbn [run]. unfold step at 1. cbn [current world]. unfold after.
    rewrite handshake_turn_run, Hl.
    rewrite IH by exact Hr.
    rewrite consumed_add_out, add_out_add_out. reflexivity.
Qed.

(** C9: while the handshake is awaited, a line without the token makes the
    backend write FAIL, stay in AWAITING_HANDSHAKE (it neither serves nor
    ends) and go on with the rest of the input, for as many such lines as
    come; it moves to SERVING exactly on a line with the token, having
    written the acknowledgement and flushed. *)
Theorem handshake_waits_for_token (env : Env) (w : World) :
  (contains "HELO" (fst (read_line (stdin w))) = false ->
   step env (mkSession AWAITING_HANDSHAKE w) =
   mkSession AWAITING_HANDSHAKE
             (add_out [Write ("FAIL" ++ LF)]
                      (consumed (snd (read_line (stdin w))) w))) /\
  (contains "HELO" (fst (read_line (stdin w))) = true ->
   step env (mkSession AWAITING_HANDSHAKE w) =
   mkSession SERVING
             (add_out [Write ("OK" ++ TAB ++ "M-Lab Backend" ++ LF); Flush]
                      (consumed (snd (read_line (stdin w))) w))) /\
  (current (step env (mkSession AWAITING_HANDSHAKE w)) = SERVING <->
   contains "HELO" (fst (read_line (stdin w))) = true) /\
  (forall n, no_token_in_first n (stdin w) = true ->
   run env n (mkSession AWAITING_HANDSHAKE w) =
   mkSession AWAITING_HANDSHAKE
             (add_out (repeat (Write ("FAIL" ++ LF)) n)
                      (consumed (after_lines n (stdin w)) w))).
Proof.
  assert (Hstep : step env (mkSession AWAITING_HANDSHAKE w) =
                  after handshake_turn w AWAITING_HANDSHAKE SERVING)
    by reflexivity.
  rewrite Hstep. unfold after. rewrite handshake_turn_run.
  destruct (contains "HELO" (fst (read_line (stdin w)))).
  - repeat split; try discriminate; try reflexivity.
    intros n. now apply run_without_token.
  - repeat split; try discriminate; try reflexivity.
    intros n. now apply run_without_token.
Qed.

Lemma handshake_waits_for_token_witness :
  contains "HELO" (fst (read_line ("hello" ++ LF ++ "HELO" ++ TAB ++ "1" ++ LF)))
    = false /\
  step test_env
       (mkSession AWAITING_HANDSHAKE
          (mkWorld ("hello" ++ LF ++ "HELO" ++ TAB ++ "1" ++ LF) [] [] [] None)) =
  mkSession AWAITING_HANDSHAKE
            (mkWorld ("HELO" ++ TAB ++ "1" ++ LF) [Write ("FAIL" ++ LF)] [] []
                     None).
Proof.
  split; [reflexivity|].
  apply (handshake_waits_for_token test_env
           (mkWorld ("hello" ++ LF ++ "HELO" ++ TAB ++ "1" ++ LF) [] [] [] None)).
  reflexivity.
Defined.

Lemma no_token_at_eof (n : nat) : no_token_in_first n "" = true.
Proof. induction n as [|n IH]; [reflexivity | exact IH]. Qed.

Lemma after_lines_eof (n : nat) : after_lines n "" = "".
Proof. induction n as [|n IH]; [reflexivity | exact IH]. Qed.

(** C10: end of input ends the session only in SERVING.  When the input is
    exhausted while the handshake is still awaited, every turn reads an
    empty line, writes FAIL and stays in AWAITING_HANDSHAKE: after any
    number of turns the session has neither terminated nor begun to serve. *)
Theorem eof_before_handshake_never_ends (env : Env) (w : World) (n : nat) :
  stdin w = "" ->
  run env n (mkSession AWAITING_HANDSHAKE w) =
    mkSession AWAITING_HANDSHAKE (add_out (repeat (Write ("FAIL" ++ LF)) n) w) /\
  step env (mkSession SERVING w) = mkSession TERMINATED w.
Proof.
  intros H. split.
  - rewrite run_without_token by (rewrite H; apply no_token_at_eof).
    rewrite H, after_lines_eof. destruct w; simpl in *; subst. reflexivity.
  - unfold step. cbn [current world]. unfold after, serving_turn, bind,
      stdin_readline. rewrite H. cbn. destruct w; simpl in *; subst.
    reflexivity.
Qed.

Lemma eof_before_handshake_never_ends_witness :
  stdin quiet_world = "" /\
  run test_env 3 (mkSession AWAITING_HANDSHAKE quiet_world) =
    mkSession AWAITING_HANDSHAKE
      (mkWorld "" [Write ("FAIL" ++ LF); Write ("FAIL" ++ LF);
                   Write ("FAIL" ++ LF)] [] [] None) /\
  step test_env (mkSession SERVING quiet_world) =
    mkSession TERMINATED quiet_world.
Proof.
  split; [reflexivity|].
  apply (eof_before_handshake_never_ends test_env quiet_world 3). reflexivity.
Defined.

(** ** Naming resolver *)

Lemma mlabns_a_record_open_fails (env : Env) (q : Query) (w : World)
  (more : list Lookup) :
  ns_answers w = OpenFails :: more ->
  mlabns_a_record env q w =
  (Raises NameError, answered (request_for env q) more w).
Proof.
  intros H. unfold mlabns_a_record, bind, try_except, urlopen.
  rewrite H. reflexivity.
Qed.

Lemma mlabns_a_record_not_json (env : Env) (q : Query) (w : World)
  (more : list Lookup) :
  ns_answers w = Opens BodyNotJson :: more ->
  mlabns_a_record env q w =
  (Raises ValueError, answered (request_for env q) more w).
Proof.
  intros H. unfold mlabns_a_record, bind, try_except, urlopen.
  rewrite H. reflexivity.
Qed.

Lemma mlabns_a_record_settles (env : Env) (q : Query) (w : World)
  (resp : Response) (more : list Lookup) (r : option string) :
  ns_answers w = Opens resp :: more ->
  resolution resp = Some r ->
  query_is_ascii q = true ->
  mlabns_a_record env q w =
  (Returns (option_map (a_line q) r),
   add_out match r with
           | Some _ => []
           | None => answer_events env q resp None
           end
           (answered (request_for env q) more w)).
Proof.
  intros Hw Hr Hq. unfold mlabns_a_record, bind, try_except, urlopen.
  rewrite Hw. cbn [ret].
  destruct resp as [|doc]; [discriminate|].
  destruct doc as [| | | | |m]; try discriminate.
  cbn [resolution] in Hr. cbn [json_load ret lift not_in].
  destruct (assoc "ip" m) as [v|] eqn:E.
  - cbn [getitem]. rewrite E.
    destruct v as [| | | |l|]; try discriminate.
    destruct l as [|[| | |ip| |] l].
    + inversion Hr; subst r. reflexivity.
    + discriminate.
    + discriminate.
    + discriminate.
    + cbn [py_len List.length Nat.eqb getitem0].
      destruct (no_percent ip && is_ascii ip) eqn:Hip; [|discriminate].
      inversion Hr; subst r. apply andb_true_iff in Hip as [Hp Ha].
      rewrite Ha, Hq. cbn [andb].
      rewrite (a_record_plain q ip Hp). cbn [option_map].
      now rewrite add_out_nil.
    + discriminate.
    + discriminate.
  - inversion Hr; subst r. reflexivity.
Qed.

(** C1, at the failing input: the naming service cannot be reached while an
    A question for the zone is served.  The resolver raises [NameError] out
    of its own handler and logs nothing; the session then stops with that
    exception, having written the input trace only: no END line, and the
    question behind stays unread however many turns are allowed. *)
Theorem failed_lookup_escapes_resolver :
  mlabns_a_record test_env (zone_question "A") unreachable_world =
    (Raises NameError,
     mkWorld (zone_question_line "A" ++ zone_question_line "SOA") []
             [OpenFails]
             [request_for test_env (zone_question "A")] None) /\
  run test_env 5 (mkSession SERVING unreachable_world) =
    mkSession (CRASHED NameError)
      (mkWorld (zone_question_line "SOA")
               [log_line ("INPUT: " ++ strip (zone_question_line "A") ++ LF)]
               [OpenFails]
               [request_for test_env (zone_question "A")] None).
Proof.
  split.
  - now rewrite (mlabns_a_record_open_fails _ _ _ [OpenFails]).
  - reflexivity.
Qed.

(** ** NS host source *)

Lemma count_app (p : event -> bool) (a b : list event) :
  count p (a ++ b)%list = count p a + count p b.
Proof. unfold count. now rewrite filter_app, length_app. Qed.

Lemma count_data_events (msg : string) : count is_data (data_events msg) = 1.
Proof. destruct msg; reflexivity. Qed.

Lemma count_ns_events (q : Query) (hosts : list string) :
  count is_data (ns_events q hosts) = List.length hosts.
Proof.
  induction hosts as [|h hosts IH]; [reflexivity|].
  unfold ns_events in *. cbn [flat_map]. rewrite count_app, IH.
  now rewrite count_data_events.
Qed.

Lemma for_each_hosts (q : Query) (hosts : list string) (w : World) :
  forallb (fun host => no_percent (strip host)) hosts = true ->
  for_each hosts
    (fun host =>
       reply <- lift (ns_record q ("utility.mlab." ++ strip host)) ;;
       data_msg (Some reply)) w =
  (Returns tt, add_out (ns_events q hosts) w).
Proof.
  revert w. induction hosts as [|h hosts IH]; intros w H.
  - cbn. now rewrite add_out_nil.
  - cbn [forallb] in H. apply andb_true_iff in H as [Hh Hr].
    cbn [for_each]. unfold bind at 1. unfold bind at 1. unfold lift.
    rewrite ns_record_plain by exact Hh.
    fold (ns_line q ("utility.mlab." ++ strip h)).
    rewrite data_msg_run, (IH _ Hr), add_out_add_out. reflexivity.
Qed.

Lemma handle_ns_records_run (env : Env) (q : Query) (w : World) :
  hosts_plain (donar_txt w) = true ->
  handle_ns_records env q w =
  (Returns tt, add_out (peer_events q (donar_txt w)) w).
Proof.
  intros H. unfold handle_ns_records, bind at 1, try_except at 1,
    bind at 1, open_readlines.
  destruct (donar_txt w) as [content|] eqn:E.
  - cbn [ret hosts_plain peer_events] in *. unfold try_except.
    now rewrite (for_each_hosts q _ w H).
  - reflexivity.
Qed.

(** C7, as stated, fails on a list whose first line is blank: the six lines
    used are the first six lines, the blank one among them, so the replies
    name [utility.mlab.] and h1 to h5, and h6, the sixth entry that is not
    empty, gets none. *)
Lemma blank_line_is_used :
  List.length (read_lines blank_first) = 7 /\
  handle_ns_records test_env (zone_question "NS") (with_hosts blank_first) =
    (Returns tt,
     add_out (flat_map
                (fun host => data_events (ns_line (zone_question "NS") host))
                ["utility.mlab."; "utility.mlab.h1"; "utility.mlab.h2";
                 "utility.mlab.h3"; "utility.mlab.h4"; "utility.mlab.h5"])
             (with_hosts blank_first)).
Proof. split; reflexivity. Qed.

(** C7, amended: [handle_ns_records] uses the first six lines of the list
    in their order, blank or not, and all of them when there are fewer; each
    is trimmed, prefixed with [utility.mlab.] and written as one NS reply,
    so a list of more than six lines gets exactly six replies, for its first
    six lines.  (Lines with a percent sign are left aside.) *)
Theorem handle_ns_records_first_six (env : Env) (q : Query) (w : World)
  (content : string) :
  donar_txt w = Some content ->
  forallb (fun host => no_percent (strip host))
          (firstn 6 (read_lines content)) = true ->
  handle_ns_records env q w =
    (Returns tt,
     add_out (flat_map
                (fun host =>
                   data_events (ns_line q ("utility.mlab." ++ strip host)))
                (firstn 6 (read_lines content))) w) /\
  count is_data (ns_events q (firstn 6 (read_lines content))) =
    Nat.min 6 (List.length (read_lines content)).
Proof.
  intros Hf Hp. split.
  - rewrite handle_ns_records_run by (rewrite Hf; exact Hp).
    now rewrite Hf.
  - now rewrite count_ns_events, length_firstn.
Qed.

Lemma handle_ns_records_first_six_witness :
  donar_txt (with_hosts blank_first) = Some blank_first /\
  forallb (fun host => no_percent (strip host))
          (firstn 6 (read_lines blank_first)) = true /\
  count is_data
        (ns_events (zone_question "NS") (firstn 6 (read_lines blank_first))) =
    Nat.min 6 (List.length (read_lines blank_first)).
Proof.
  split; [reflexivity|]. split; [reflexivity|].
  apply (handle_ns_records_first_six test_env (zone_question "NS")
           (with_hosts blank_first) blank_first); reflexivity.
Defined.

(** ** Serving one question *)

Lemma accepted_name (nm : string) :
  In nm NDT_HOSTLIST -> opt_in (Some nm) NDT_HOSTLIST = true /\ is_ascii nm = true.
Proof.
  intros [<-|[<-|[]]]; split; reflexivity.
Qed.

Lemma lookup_and_reply (env : Env) (q : Query) (w : World) (resp : Response)
  (more : list Lookup) (r : option string) :
  ns_answers w = Opens resp :: more ->
  resolution resp = Some r ->
  query_is_ascii q = true ->
  (reply <- mlabns_a_record env q ;; data_msg reply) w =
  (Returns tt,
   add_out (answer_events env q resp r) (answered (request_for env q) more w)).
Proof.
  intros Hw Hr Hq.
  rewrite (bind_returns _ _ _ _ _ (mlabns_a_record_settles env q w resp more r Hw Hr Hq)).
  destruct r as [ip|]; cbn [option_map answer_events].
  - now rewrite data_msg_run, add_out_add_out.
  - reflexivity.
Qed.


Lemma finish_line (m : M unit) (w w' : World) :
  m w = (Returns tt, w') ->
  (m ;; stdout_write ("END" ++ LF) ;; stdout_flush) w =
  (Returns tt, add_out [Write ("END" ++ LF); Flush] w').
Proof.
  intros H. rewrite (bind_returns _ _ _ _ _ H).
  unfold bind, stdout_write, stdout_flush, emit, add_out. simpl.
  now rewrite <- app_assoc.
Qed.




(** ** What serving a line may write *)

Lemma ro_silent {A} (m : M A) :
  (forall w, stdout (snd (m w)) = stdout w) -> replies_only m.
Proof.
  intros H w o w' E. exists []. specialize (H w). rewrite E in H.
  cbn in H. now rewrite app_nil_r.
Qed.

Lemma ro_ret {A} (a : A) : replies_only (ret a).
Proof. now apply ro_silent. Qed.

Lemma ro_raise {A} (e : exn) : replies_only (@raise A e).
Proof. now apply ro_silent. Qed.

Lemma ro_unmodelled {A} : replies_only (@unmodelled A).
Proof. now apply ro_silent. Qed.

Lemma ro_lift {A} (o : outcome A) : replies_only (lift o).
Proof. now apply ro_silent. Qed.

Lemma ro_urlopen (r : Request) : replies_only (urlopen r).
Proof.
  apply ro_silent. intros w. unfold urlopen.
  destruct (ns_answers w) as [|[|resp] l]; reflexivity.
Qed.

Lemma ro_json_load (resp : Response) : replies_only (json_load resp).
Proof. destruct resp; now apply ro_silent. Qed.

Lemma ro_open_readlines : replies_only open_readlines.
Proof.
  apply ro_silent. intros w. unfold open_readlines.
  now destruct (donar_txt w).
Qed.

Lemma ro_bind {A B} (m : M A) (f : A -> M B) :
  replies_only m -> (forall a, replies_only (f a)) -> replies_only (bind m f).
Proof.
  intros Hm Hf w o w' E. unfold bind in E.
  destruct (m w) as [[a|e|] w1] eqn:E1;
    destruct (Hm _ _ _ E1) as [e1 [S1 R1]].
  - destruct (Hf a _ _ _ E) as [e2 [S2 R2]].
    exists (e1 ++ e2)%list. rewrite S2, S1, <- app_assoc, forallb_app, R1, R2.
    now split.
  - inversion E; subst. now exists e1.
  - inversion E; subst. now exists e1.
Qed.

Lemma ro_try_except {A} (m h : M A) :
  replies_only m -> replies_only h -> replies_only (try_except m h).
Proof.
  intros Hm Hh w o w' E. unfold try_except in E.
  destruct (m w) as [[a|e|] w1] eqn:E1;
    destruct (Hm _ _ _ E1) as [e1 [S1 R1]].
  - inversion E; subst. now exists e1.
  - destruct (Hh _ _ _ E) as [e2 [S2 R2]].
    exists (e1 ++ e2)%list. rewrite S2, S1, <- app_assoc, forallb_app, R1, R2.
    now split.
  - inversion E; subst. now exists e1.
Qed.

Lemma ro_for_each {A} (l : list A) (body : A -> M unit) :
  (forall a, replies_only (body a)) -> replies_only (for_each l body).
Proof.
  intros H. induction l as [|x l IH]; cbn [for_each].
  - apply ro_ret.
  - apply ro_bind; [apply H | intros _; exact IH].
Qed.

Lemma ro_log_msg (msg : option string) : replies_only (log_msg msg).
Proof.
  destruct msg as [msg|]; [|apply ro_ret].
  intros w o w' E. rewrite log_msg_run in E. inversion E; subst.
  exists [log_line msg]. split; [reflexivity|].
  unfold log_line. cbn. now destruct (replace "009" " " msg).
Qed.

Lemma ro_data_msg (msg : option string) : replies_only (data_msg msg).
Proof.
  destruct msg as [msg|]; [|apply ro_ret].
  intros w o w' E. rewrite data_msg_run in E. inversion E; subst.
  exists (data_events msg). split; [reflexivity|].
  unfold data_events, log_line. cbn.
  destruct (replace "009" " " msg); now destruct msg.
Qed.

Create HintDb replies.
#[local] Hint Resolve ro_ret ro_raise ro_unmodelled ro_lift ro_urlopen
  ro_json_load ro_open_readlines ro_log_msg ro_data_msg : replies.

(** Walks down a computation built from the pieces above. *)
Ltac walk :=
  repeat first
    [ solve [auto with replies]
    | apply ro_bind; [|intros ?]
    | apply ro_try_except
    | apply ro_for_each; intros ?
    | match goal with
      | |- replies_only (if ?b then _ else _) => destruct b
      | |- replies_only (match ?x with _ => _ end) => destruct x
      end ].

Lemma ro_query_to_dict (line : string) : replies_only (query_to_dict line).
Proof. unfold query_to_dict. walk. Qed.

Lemma ro_mlabns_a_record (env : Env) (q : Query) :
  replies_only (mlabns_a_record env q).
Proof. unfold mlabns_a_record, missing_ip, unbound_name. walk. Qed.

Lemma ro_handle_ns_records (env : Env) (q : Query) :
  replies_only (handle_ns_records env q).
Proof. unfold handle_ns_records. walk. Qed.

#[local] Hint Resolve ro_query_to_dict ro_mlabns_a_record
  ro_handle_ns_records : replies.

Lemma reply_is_no_end (evs : list event) :
  forallb is_reply evs = true ->
  count is_end evs = 0 /\ existsb is_flush evs = false.
Proof.
  induction evs as [|e evs IH]; [now split|].
  cbn [forallb]. intros H. apply andb_true_iff in H as [He Hr].
  destruct (IH Hr) as [Hc Hf]. unfold count in *. cbn [filter existsb].
  destruct e as [s|]; [|discriminate]. cbn [is_flush orb].
  assert (Hs : is_end (Write s) = false).
  { unfold is_end. destruct (String.eqb_spec s ("END" ++ LF)) as [->|];
      [discriminate | reflexivity]. }
  rewrite Hs. now split.
Qed.

Lemma bind_inv {A B} (m : M A) (f : A -> M B) (w w' : World) (b : B) :
  bind m f w = (Returns b, w') ->
  exists a w1, m w = (Returns a, w1) /\ f a w1 = (Returns b, w').
Proof.
  unfold bind. destruct (m w) as [[a|e|] w1]; try discriminate.
  intros H. now exists a, w1.
Qed.

(** Whenever serving a line returns, what it wrote is LOG and DATA writes
    closed by one END and one flush. *)
Lemma serve_line_returns (env : Env) (line : string) (w w' : World) :
  serve_line env line w = (Returns tt, w') ->
  exists evs,
    stdout w' = (stdout w ++ evs ++ [Write ("END" ++ LF); Flush])%list /\
    count is_end evs = 0 /\ existsb is_flush evs = false.
Proof.
  unfold serve_line. intros H.
  apply bind_inv in H as (q & w1 & E1 & H).
  apply bind_inv in H as (u & w2 & E2 & H).
  apply bind_inv in H as (v & w3 & E3 & H).
  destruct (ro_query_to_dict _ _ _ _ E1) as [e1 [S1 R1]].
  destruct (ro_log_msg _ _ _ _ E2) as [e2 [S2 R2]].
  assert (Hd : exists e3, stdout w3 = (stdout w2 ++ e3)%list /\
                          forallb is_reply e3 = true).
  { revert E3. generalize w2 (Returns v) w3.
    match goal with
    | |- forall a b c, ?d a = _ -> _ => change (replies_only d)
    end.
    walk. }
  destruct Hd as [e3 [S3 R3]].
  exists (e1 ++ e2 ++ e3)%list.
  assert (Hw : w' = add_out [Write ("END" ++ LF); Flush] w3).
  { unfold bind, stdout_write, stdout_flush, emit in H. cbn in H.
    inversion H. unfold add_out. now rewrite <- app_assoc. }
  subst w'. cbn [add_out stdout]. rewrite S3, S2, S1, <- !app_assoc.
  split; [reflexivity|].
  apply reply_is_no_end. now rewrite !forallb_app, R1, R2, R3.
Qed.

(** C5, at the failing input: an A question for the zone is read in SERVING
    while the naming service cannot be reached.  The line is not empty, yet
    the turn ends with [NameError] outside [main]: no END line was written
    and nothing was flushed.  (On every line whose processing returns, END
    and the flush are there: [serve_line_returns].) *)
Theorem failed_lookup_leaves_no_END :
  fst (read_line (stdin unreachable_world)) = zone_question_line "A" /\
  current (step test_env (mkSession SERVING unreachable_world)) =
    CRASHED NameError /\
  count is_end
    (stdout (world (step test_env (mkSession SERVING unreachable_world)))) = 0 /\
  existsb is_flush
    (stdout (world (step test_env (mkSession SERVING unreachable_world)))) =
    false.
Proof. repeat split. Qed.

(** * Further properties *)

(** ** Splitting and joining *)

Lemma split_free (sep : ascii) (s : string) :
  forall_chars (fun c => negb (Ascii.eqb c sep)) s = true ->
  split sep s = [s].
Proof.
  induction s as [|c s IH]; [reflexivity|].
  cbn [forall_chars split]. intros H. apply andb_true_iff in H as [Hc Hs].
  apply negb_true_iff in Hc. now rewrite Hc, (IH Hs).
Qed.

Lemma split_app_sep (sep : ascii) (a b : string) :
  forall_chars (fun c => negb (Ascii.eqb c sep)) a = true ->
  split sep (a ++ String sep b) = a :: split sep b.
Proof.
  induction a as [|c a IH]; cbn [forall_chars append split]; intros H.
  - now rewrite Ascii.eqb_refl.
  - apply andb_true_iff in H as [Hc Ha]. apply negb_true_iff in Hc.
    now rewrite Hc, (IH Ha).
Qed.

Lemma split_fields_free (sep : ascii) (s : string) :
  forallb (forall_chars (fun c => negb (Ascii.eqb c sep))) (split sep s) = true.
Proof.
  induction s as [|c s IH]; [reflexivity|].
  cbn [split]. destruct (Ascii.eqb c sep) eqn:E.
  - cbn [forallb forall_chars]. exact IH.
  - destruct (split sep s) as [|f fs]; cbn [forallb forall_chars] in *.
    + now rewrite E.
    + now rewrite E.
Qed.

(** ** Formatters and logging *)

(** X1: for an address without percent sign, [a_record] returns the name,
    class and id of the query as they are (percent signs in them are not
    read as conversions), with A and the TTL between them, then the address
    and a newline. *)
Theorem a_record_exact_line (q : Query) (ipaddr : string) :
  no_percent ipaddr = true ->
  a_record q ipaddr =
  Returns (py_str (of_opt (q_name q)) ++ TAB ++ py_str (of_opt (q_class q)) ++
           TAB ++ "A" ++ TAB ++ str_int (q_ttl q) ++ TAB ++ q_id q ++ TAB ++
           ipaddr ++ LF).
Proof. exact (a_record_plain q ipaddr). Qed.

Lemma a_record_exact_line_witness :
  no_percent "192.168.1.2" = true /\
  a_record (mkQuery "Q" (Some "ndt.iupui.donar.measurement-lab.org.")
              (Some "100%") (Some "A") "42" (Some "10.0.0.1") 300)
           "192.168.1.2" =
  Returns ("ndt.iupui.donar.measurement-lab.org." ++ TAB ++ "100%" ++ TAB ++ "A" ++
           TAB ++ "300" ++ TAB ++ "42" ++ TAB ++ "192.168.1.2" ++ LF).
Proof.
  split; [reflexivity|].
  apply (a_record_exact_line
           (mkQuery "Q" (Some "ndt.iupui.donar.measurement-lab.org.")
              (Some "100%") (Some "A") "42" (Some "10.0.0.1") 300)
           "192.168.1.2").
  reflexivity.
Defined.

(** X2: on a control query, whose name and class are absent, the three
    formatters still return a line; the absent fields come out as the text
    None, not as empty tokens. *)
Theorem formatters_write_None (kind id ipaddr host : string) :
  no_percent ipaddr = true ->
  no_percent host = true ->
  soa_record (control_query kind id) =
    Returns (DOMAIN ++ "." ++ TAB ++ "None" ++ TAB ++ "SOA" ++ TAB ++ "300" ++ TAB ++
             "-1" ++ TAB ++
             "localhost. support.measurementlab.net. 2013092700 1800 3600 604800 3600"
             ++ LF) /\
  a_record (control_query kind id) ipaddr =
    Returns ("None" ++ TAB ++ "None" ++ TAB ++ "A" ++ TAB ++ "300" ++ TAB ++ id ++
             TAB ++ ipaddr ++ LF) /\
  ns_record (control_query kind id) host =
    Returns (DOMAIN ++ TAB ++ "None" ++ TAB ++ "NS" ++ TAB ++ "300" ++ TAB ++ id ++
             TAB ++ host ++ LF).
Proof.
  intros Hi Hh. split; [|split].
  - now rewrite soa_record_line.
  - now rewrite (a_record_plain _ _ Hi).
  - now rewrite (ns_record_plain _ _ Hh).
Qed.

Lemma formatters_write_None_witness :
  no_percent "192.0.2.1" = true /\
  no_percent "utility.mlab.host1" = true /\
  a_record (control_query "HELO" "1") "192.0.2.1" =
    Returns ("None" ++ TAB ++ "None" ++ TAB ++ "A" ++ TAB ++ "300" ++ TAB ++ "1" ++
             TAB ++ "192.0.2.1" ++ LF).
Proof.
  split; [reflexivity|]. split; [reflexivity|].
  apply (formatters_write_None "HELO" "1" "192.0.2.1" "utility.mlab.host1");
    reflexivity.
Defined.

Lemma replace_no_tab (s : string) : no_tab (replace "009" " " s) = true.
Proof.
  unfold no_tab. induction s as [|c s IH]; [reflexivity|].
  cbn [replace forall_chars]. rewrite IH, andb_true_r.
  destruct (Ascii.eqb c "009") eqn:E; [reflexivity | now rewrite E].
Qed.

Lemma replace_length (a b : ascii) (s : string) :
  String.length (replace a b s) = String.length s.
Proof. induction s as [|c s IH]; simpl; [reflexivity | now rewrite IH]. Qed.

Lemma replace_no_tab_id (s : string) :
  no_tab s = true -> replace "009" " " s = s.
Proof.
  unfold no_tab. induction s as [|c s IH]; [reflexivity|].
  cbn [replace forall_chars]. intros H. apply andb_true_iff in H as [Hc Hs].
  apply negb_true_iff in Hc. now rewrite Hc, (IH Hs).
Qed.

(** X3: whatever the message, [log_msg] makes one write and nothing else,
    and the written text has exactly two tab-separated fields, the tag LOG
    and the message with its tabs turned into spaces: a message cannot add a
    field to the log line.  A message without tabs is written as it is. *)
Theorem log_msg_one_field (msg : string) (w : World) :
  exists text,
    log_msg (Some msg) w = (Returns tt, add_out [Write text] w) /\
    split "009" text = ["LOG"; replace "009" " " msg] /\
    String.length text = 4 + String.length msg /\
    (no_tab msg = true -> text = "LOG" ++ TAB ++ msg).
Proof.
  exists ("LOG" ++ TAB ++ replace "009" " " msg).
  split; [reflexivity|]. split; [|split].
  - change ("LOG" ++ TAB ++ replace "009" " " msg)
      with ("LOG" ++ String "009" (replace "009" " " msg)).
    rewrite split_app_sep by reflexivity.
    now rewrite (split_free _ _ (replace_no_tab msg)).
  - cbn. now rewrite replace_length.
  - intros H. now rewrite (replace_no_tab_id _ H).
Qed.

(** ** Query classifier: round trips *)

(** X4: six fields without tabs, joined by tabs, parse to the query that
    has exactly these fields, and two such fields parse to the control
    query; nothing is written. *)
Theorem query_to_dict_of_fields (k n c t i r : string) (w : World) :
  no_tab k && no_tab n && no_tab c && no_tab t && no_tab i && no_tab r = true ->
  query_to_dict (k ++ TAB ++ n ++ TAB ++ c ++ TAB ++ t ++ TAB ++ i ++ TAB ++ r) w =
    (Returns (Some (mkQuery k (Some n) (Some c) (Some t) i (Some r) 300)), w) /\
  query_to_dict (k ++ TAB ++ i) w = (Returns (Some (control_query k i)), w).
Proof.
  intros H. repeat (apply andb_true_iff in H as [H ?]).
  unfold TAB. cbn [append]. split.
  - apply query_to_dict_six.
    rewrite !split_app_sep by assumption. now rewrite split_free.
  - apply query_to_dict_two.
    rewrite !split_app_sep by assumption. now rewrite split_free.
Qed.

Lemma query_to_dict_of_fields_witness :
  no_tab "Q" && no_tab "donar.measurement-lab.org" && no_tab "IN" &&
  no_tab "A" && no_tab "7" && no_tab "10.0.0.1" = true /\
  query_to_dict (strip (zone_question_line "A")) quiet_world =
    (Returns (Some (zone_question "A")), quiet_world).
Proof.
  split; [reflexivity|].
  apply (query_to_dict_of_fields "Q" "donar.measurement-lab.org" "IN" "A" "7"
           "10.0.0.1" quiet_world).
  reflexivity.
Defined.

(** X5: when [query_to_dict] returns a query, the world is as before, the
    ttl is 300, no field of the query has a tab in it, and the fields joined
    by tabs are the line again: the parse loses nothing. *)
Theorem query_to_dict_lossless (line : string) (w w' : World) (q : Query) :
  query_to_dict line w = (Returns (Some q), w') ->
  w' = w /\
  q_ttl q = 300%Z /\
  forallb no_tab (query_fields q) = true /\
  String.concat TAB (query_fields q) = line.
Proof.
  intros H. pose proof (split_concat "009" line) as Hj.
  pose proof (split_fields_free "009" line) as Hf.
  unfold query_to_dict in H.
  destruct (split "009" line) as [|a [|b [|c [|d [|e [|f [|g l]]]]]]];
    try discriminate;
    inversion H; subst; repeat split; assumption.
Qed.

Lemma query_to_dict_lossless_witness :
  query_to_dict (strip (zone_question_line "NS")) quiet_world =
    (Returns (Some (zone_question "NS")), quiet_world) /\
  String.concat TAB (query_fields (zone_question "NS")) =
    strip (zone_question_line "NS").
Proof.
  split; [reflexivity|].
  apply (query_to_dict_lossless (strip (zone_question_line "NS")) quiet_world
           quiet_world (zone_question "NS")).
  reflexivity.
Defined.

(** ** Serving lines that reach no lookup *)

Lemma finish_silent (w : World) :
  (ret tt ;; stdout_write ("END" ++ LF) ;; stdout_flush) w =
  (Returns tt, add_out [Write ("END" ++ LF); Flush] w).
Proof. now apply finish_line. Qed.

(** X6: a line whose number of fields is neither 2 nor 6 is answered by
    the failure log of the classifier, the input trace and END with a flush,
    in this order; no DATA line, no request, and the turn returns. *)
Theorem malformed_line_is_framed (env : Env) (line : string) (w : World) :
  List.length (split "009" (strip line)) <> 2 ->
  List.length (split "009" (strip line)) <> 6 ->
  serve_line env line w =
  (Returns tt,
   add_out [log_line ("FAILED to parse query: " ++ strip line ++ LF);
            log_line ("INPUT: " ++ strip line ++ LF);
            Write ("END" ++ LF); Flush] w).
Proof.
  intros H2 H6. unfold serve_line.
  rewrite (bind_returns _ _ _ _ _ (query_to_dict_other _ w H2 H6)).
  rewrite (bind_returns _ _ _ _ _ (log_msg_run _ _)).
  rewrite finish_silent. now rewrite !add_out_add_out.
Qed.

Lemma malformed_line_is_framed_witness :
  List.length (split "009" (strip ("PING" ++ LF))) <> 2 /\
  List.length (split "009" (strip ("PING" ++ LF))) <> 6 /\
  serve_line test_env ("PING" ++ LF) quiet_world =
  (Returns tt,
   add_out [log_line ("FAILED to parse query: PING" ++ LF);
            log_line ("INPUT: PING" ++ LF);
            Write ("END" ++ LF); Flush] quiet_world).
Proof.
  split; [simpl; discriminate|]. split; [simpl; discriminate|].
  apply (malformed_line_is_framed test_env ("PING" ++ LF) quiet_world);
    simpl; discriminate.
Defined.

(** X7: a line of two fields, whatever they are (a second HELO, a PING with
    an id), gets the input trace and END with a flush and nothing else. *)
Theorem control_line_is_framed (env : Env) (line kind id : string) (w : World) :
  split "009" (strip line) = [kind; id] ->
  serve_line env line w =
  (Returns tt,
   add_out [log_line ("INPUT: " ++ strip line ++ LF);
            Write ("END" ++ LF); Flush] w).
Proof.
  intros H. unfold serve_line.
  rewrite (bind_returns _ _ _ _ _ (query_to_dict_two _ w _ _ H)).
  rewrite (bind_returns _ _ _ _ _ (log_msg_run _ _)).
  cbn [q_kind q_name opt_in existsb opt_eqb]. rewrite andb_false_r.
  rewrite finish_silent. now rewrite !add_out_add_out.
Qed.

Lemma control_line_is_framed_witness :
  split "009" (strip ("HELO" ++ TAB ++ "1" ++ LF)) = ["HELO"; "1"] /\
  serve_line test_env ("HELO" ++ TAB ++ "1" ++ LF) quiet_world =
  (Returns tt,
   add_out [log_line ("INPUT: HELO" ++ TAB ++ "1" ++ LF);
            Write ("END" ++ LF); Flush] quiet_world).
Proof.
  split; [reflexivity|].
  apply (control_line_is_framed test_env ("HELO" ++ TAB ++ "1" ++ LF) "HELO" "1"
           quiet_world).
  reflexivity.
Defined.



(** X9: a SOA question for an accepted name gets the input trace, one
    reply (its log copy, then the DATA line with the SOA record of the
    query's class) and END with a flush; the naming service is not asked
    and the host list is not read. *)
Theorem soa_question_one_record (env : Env) (w : World)
  (line nm cls id rip : string) :
  split "009" (strip line) = ["Q"; nm; cls; "SOA"; id; rip] ->
  In nm NDT_HOSTLIST ->
  serve_line env line w =
  (Returns tt,
   add_out ([log_line ("INPUT: " ++ strip line ++ LF)] ++
            data_events (soa_line (mkQuery "Q" (Some nm) (Some cls) (Some "SOA")
                                           id (Some rip) 300)) ++
            [Write ("END" ++ LF); Flush]) w).
Proof.
  intros Hs Hn. destruct (accepted_name nm Hn) as [Hacc _].
  unfold serve_line.
  rewrite (bind_returns _ _ _ _ _ (query_to_dict_six _ w _ _ _ _ _ _ Hs)).
  rewrite (bind_returns _ _ _ _ _ (log_msg_run _ _)).
  cbn [q_kind q_name q_type]. rewrite Hacc.
  change (String.eqb "Q" "Q") with true.
  change (opt_eqb (Some "SOA") "SOA") with true.
  change (opt_in (Some "SOA") ["ANY"; "A"]) with false.
  change (opt_in (Some "SOA") ["ANY"; "NS"]) with false.
  cbv iota. cbn [andb].
  erewrite finish_line.
  2:{ erewrite bind_returns.
      2:{ unfold bind, lift. rewrite soa_record_line. apply data_msg_run. }
      reflexivity. }
  now rewrite !add_out_add_out.
Qed.

Lemma soa_question_one_record_witness :
  split "009" (strip (zone_question_line "SOA")) =
    ["Q"; DOMAIN; "IN"; "SOA"; "7"; "10.0.0.1"] /\
  In DOMAIN NDT_HOSTLIST /\
  serve_line test_env (zone_question_line "SOA") two_answers_world =
  (Returns tt,
   add_out ([log_line ("INPUT: " ++ strip (zone_question_line "SOA") ++ LF)] ++
            data_events (soa_line (zone_question "SOA")) ++
            [Write ("END" ++ LF); Flush]) two_answers_world).
Proof.
  split; [reflexivity|]. split; [right; left; reflexivity|].
  apply (soa_question_one_record test_env two_answers_world
           (zone_question_line "SOA") DOMAIN "IN" "7" "10.0.0.1").
  - reflexivity.
  - right; left; reflexivity.
Defined.

(** X10: an NS question for an accepted name gets the input trace, what
    the host list gives (one reply for each of its first six lines, or the
    single log line "Failed to open" when the file cannot be read), and END
    with a flush.  There are at most six DATA lines, none when the file is
    unreadable, and the naming service is not asked. *)
Theorem ns_question_peer_records (env : Env) (w : World)
  (line nm cls id rip : string) :
  split "009" (strip line) = ["Q"; nm; cls; "NS"; id; rip] ->
  In nm NDT_HOSTLIST ->
  hosts_plain (donar_txt w) = true ->
  serve_line env line w =
    (Returns tt,
     add_out ([log_line ("INPUT: " ++ strip line ++ LF)] ++
              peer_events (mkQuery "Q" (Some nm) (Some cls) (Some "NS") id
                                   (Some rip) 300) (donar_txt w) ++
              [Write ("END" ++ LF); Flush]) w) /\
  count is_data
    (peer_events (mkQuery "Q" (Some nm) (Some cls) (Some "NS") id (Some rip) 300)
                 (donar_txt w)) <= 6 /\
  (donar_txt w = None ->
   count is_data
     (peer_events (mkQuery "Q" (Some nm) (Some cls) (Some "NS") id (Some rip) 300)
                  (donar_txt w)) = 0).
Proof.
  intros Hs Hn Hh. destruct (accepted_name nm Hn) as [Hacc _].
  split; [|split].
  - unfold serve_line.
    rewrite (bind_returns _ _ _ _ _ (query_to_dict_six _ w _ _ _ _ _ _ Hs)).
    rewrite (bind_returns _ _ _ _ _ (log_msg_run _ _)).
    cbn [q_kind q_name q_type]. rewrite Hacc.
    change (String.eqb "Q" "Q") with true.
    change (opt_eqb (Some "NS") "SOA") with false.
    change (opt_in (Some "NS") ["ANY"; "A"]) with false.
    change (opt_in (Some "NS") ["ANY"; "NS"]) with true.
    cbv iota. cbn [andb].
    erewrite finish_line.
    2:{ rewrite (bind_returns _ _ _ _ tt eq_refl).
        rewrite (bind_returns _ _ _ _ tt eq_refl).
        apply handle_ns_records_run. exact Hh. }
    now rewrite !add_out_add_out.
  - destruct (donar_txt w) as [content|]; cbn [peer_events].
    + rewrite count_ns_events, length_firstn. lia.
    + cbn. lia.
  - intros ->. reflexivity.
Qed.

Lemma ns_question_peer_records_witness :
  split "009" (strip (zone_question_line "NS")) =
    ["Q"; DOMAIN; "IN"; "NS"; "7"; "10.0.0.1"] /\
  In DOMAIN NDT_HOSTLIST /\
  hosts_plain (donar_txt quiet_world) = true /\
  serve_line test_env (zone_question_line "NS") quiet_world =
    (Returns tt,
     add_out [log_line ("INPUT: " ++ strip (zone_question_line "NS") ++ LF);
              log_line ("Failed to open: /etc/donar.txt" ++ LF);
              Write ("END" ++ LF); Flush] quiet_world).
Proof.
  split; [reflexivity|]. split; [right; left; reflexivity|].
  split; [reflexivity|].
  apply (ns_question_peer_records test_env quiet_world
           (zone_question_line "NS") DOMAIN "IN" "7" "10.0.0.1").
  - reflexivity.
  - right; left; reflexivity.
  - reflexivity.
Defined.

(** ** What a computation leaves alone *)

Section Frame.

Variable R : World -> World -> Prop.
Hypothesis R_refl : forall w, R w w.
Hypothesis R_trans : forall a b c, R a b -> R b c -> R a c.

Lemma keeps_ret {A} (a : A) : keeps R (ret a).
Proof. intros w o w' E. inversion E. apply R_refl. Qed.

Lemma keeps_raise {A} (e : exn) : keeps R (@raise A e).
Proof. intros w o w' E. inversion E. apply R_refl. Qed.

Lemma keeps_unmodelled {A} : keeps R (@unmodelled A).
Proof. intros w o w' E. inversion E. apply R_refl. Qed.

Lemma keeps_lift {A} (o : outcome A) : keeps R (lift o).
Proof. intros w o' w' E. inversion E. apply R_refl. Qed.

Lemma keeps_json_load (resp : Response) : keeps R (json_load resp).
Proof. destruct resp; [apply keeps_raise | apply keeps_ret]. Qed.

Lemma keeps_bind {A B} (m : M A) (f : A -> M B) :
  keeps R m -> (forall a, keeps R (f a)) -> keeps R (bind m f).
Proof.
  intros Hm Hf w o w' E. unfold bind in E.
  destruct (m w) as [[a|e|] w1] eqn:E1; pose proof (Hm _ _ _ E1) as H1.
  - eapply R_trans; [exact H1 | exact (Hf a _ _ _ E)].
  - now inversion E; subst.
  - now inversion E; subst.
Qed.

Lemma keeps_try_except {A} (m h : M A) :
  keeps R m -> keeps R h -> keeps R (try_except m h).
Proof.
  intros Hm Hh w o w' E. unfold try_except in E.
  destruct (m w) as [[a|e|] w1] eqn:E1; pose proof (Hm _ _ _ E1) as H1.
  - now inversion E; subst.
  - eapply R_trans; [exact H1 | exact (Hh _ _ _ E)].
  - now inversion E; subst.
Qed.

Lemma keeps_for_each {A} (l : list A) (body : A -> M unit) :
  (forall a, keeps R (body a)) -> keeps R (for_each l body).
Proof.
  intros H. induction l as [|x l IH]; cbn [for_each].
  - apply keeps_ret.
  - apply keeps_bind; [apply H | intros _; exact IH].
Qed.

End Frame.

Lemma only_stdout_refl (w : World) : only_stdout w w.
Proof. now repeat split. Qed.

Lemma only_stdout_trans (a b c : World) :
  only_stdout a b -> only_stdout b c -> only_stdout a c.
Proof.
  unfold only_stdout. intros (A1 & A2 & A3 & A4) (B1 & B2 & B3 & B4).
  repeat split; congruence.
Qed.

Lemma same_input_refl (w : World) : same_input w w.
Proof. now split. Qed.

Lemma same_input_trans (a b c : World) :
  same_input a b -> same_input b c -> same_input a c.
Proof. unfold same_input. intros [A1 A2] [B1 B2]. split; congruence. Qed.

Lemma only_stdout_same_input {A} (m : M A) :
  keeps only_stdout m -> keeps same_input m.
Proof. intros H w o w' E. destruct (H _ _ _ E) as (H1 & _ & _ & H4). now split. Qed.

Lemma keeps_emit (e : event) : keeps only_stdout (emit e).
Proof. intros w o w' E. inversion E. now repeat split. Qed.

Lemma keeps_log_msg (msg : option string) : keeps only_stdout (log_msg msg).
Proof.
  destruct msg; [apply keeps_emit | apply keeps_ret, only_stdout_refl].
Qed.

Lemma keeps_data_msg (msg : option string) : keeps only_stdout (data_msg msg).
Proof.
  destruct msg; [|apply keeps_ret, only_stdout_refl].
  apply keeps_bind; [apply only_stdout_trans | apply keeps_emit |].
  intros _. apply keeps_emit.
Qed.

Lemma keeps_open_readlines : keeps only_stdout open_readlines.
Proof.
  intros w o w' E. unfold open_readlines in E.
  destruct (donar_txt w); inversion E; apply only_stdout_refl.
Qed.

(** Walks down a computation that only writes. *)
Ltac quiet :=
  repeat first
    [ apply keeps_log_msg
    | apply keeps_data_msg
    | apply keeps_emit
    | apply keeps_open_readlines
    | apply keeps_ret; apply only_stdout_refl
    | apply keeps_raise; apply only_stdout_refl
    | apply keeps_unmodelled; apply only_stdout_refl
    | apply keeps_lift; apply only_stdout_refl
    | apply keeps_json_load; apply only_stdout_refl
    | apply keeps_bind; [apply only_stdout_trans | | intros ?]
    | apply keeps_try_except; [apply only_stdout_trans | |]
    | apply keeps_for_each; [apply only_stdout_refl | apply only_stdout_trans
                            | intros ?]
    | match goal with
      | |- keeps _ (if ?b then _ else _) => destruct b
      | |- keeps _ (match ?x with _ => _ end) => destruct x
      end ].

Lemma keeps_query_to_dict (line : string) :
  keeps only_stdout (query_to_dict line).
Proof. unfold query_to_dict. quiet. Qed.

Lemma keeps_handle_ns_records (env : Env) (q : Query) :
  keeps only_stdout (handle_ns_records env q).
Proof. unfold handle_ns_records. quiet. Qed.

(** ** Naming resolver: every outcome *)

(** What follows a successful [open]. *)
Lemma mlabns_a_record_opened (env : Env) (q : Query) (w : World)
  (resp : Response) (more : list Lookup) :
  ns_answers w = Opens resp :: more ->
  exists k : M (option string),
    keeps only_stdout k /\
    mlabns_a_record env q w = k (answered (request_for env q) more w) /\
    k = (ns_resp <- json_load resp ;;
         absent <- lift (not_in "ip" ns_resp) ;;
         if absent then missing_ip env ns_resp
         else
           v <- lift (getitem ns_resp "ip") ;;
           n <- lift (py_len v) ;;
           if Nat.eqb n 0 then missing_ip env ns_resp
           else
             ndt_ip <- lift (getitem0 v) ;;
             match ndt_ip with
             | JStr ipaddr =>
                 if is_ascii ipaddr && query_is_ascii q then
                   reply <- lift (a_record q ipaddr) ;;
                   ret (Some reply)
                 else unmodelled
             | _ => raise TypeError
             end).
Proof.
  intros H. eexists. split; [|split; [|reflexivity]].
  - unfold missing_ip. quiet.
  - unfold mlabns_a_record, bind at 1, try_except, bind at 1, urlopen.
    rewrite H. reflexivity.
Qed.

(** X11: whatever the naming service answers and however the call ends,
    one call of [mlabns_a_record] sends exactly one request, the one for the
    remote address of the query with the User-Agent of this host, uses up
    one answer, and touches neither the input nor the host list: there is no
    retry. *)
Theorem resolver_sends_one_request (env : Env) (q : Query) (w : World) :
  requests (snd (mlabns_a_record env q w)) =
    (requests w ++ [request_for env q])%list /\
  ns_answers (snd (mlabns_a_record env q w)) = tl (ns_answers w) /\
  stdin (snd (mlabns_a_record env q w)) = stdin w /\
  donar_txt (snd (mlabns_a_record env q w)) = donar_txt w.
Proof.
  destruct (ns_answers w) as [|[|resp] more] eqn:E.
  - unfold mlabns_a_record, bind, try_except, urlopen. rewrite E.
    now repeat split.
  - unfold mlabns_a_record, bind, try_except, urlopen. rewrite E.
    now repeat split.
  - destruct (mlabns_a_record_opened env q w resp more E) as (k & K & -> & _).
    destruct (k (answered (request_for env q) more w)) as [o w'] eqn:Ek.
    destruct (K _ _ _ Ek) as (H1 & H2 & H3 & H4). cbn [snd].
    now rewrite H1, H2, H3, H4.
Qed.

(** X12: after [open] succeeded, a response the resolver cannot use makes
    it raise, and the exception leaves it with nothing written: ValueError
    for a body that is not JSON; TypeError for a document that is null, a
    boolean or a number, for a list or a string that contains "ip", for an
    "ip" that is null, a boolean or a number, and for a first candidate that
    is not a string; KeyError for an "ip" that is a non-empty object. *)
Theorem resolver_raises_on_unusable_response (env : Env) (q : Query)
  (w : World) (resp : Response) (more : list Lookup) (e : exn) :
  ns_answers w = Opens resp :: more ->
  raised_by resp = Some e ->
  mlabns_a_record env q w =
  (Raises e, answered (request_for env q) more w).
Proof.
  intros Hw Hr.
  destruct (mlabns_a_record_opened env q w resp more Hw) as (k & _ & -> & ->).
  unfold bind, lift, ret, raise.
  destruct resp as [|doc]; cbn [raised_by json_load] in *.
  - now inversion Hr.
  - destruct doc as [| | | s | l | m]; cbn [not_in raise ret] in *.
    + now inversion Hr.
    + now inversion Hr.
    + now inversion Hr.
    + destruct (contains "ip" s); [|discriminate]. now inversion Hr.
    + destruct (existsb (is_str "ip") l); [|discriminate]. now inversion Hr.
    + destruct (assoc "ip" m) as [v|] eqn:Ev; [|discriminate].
      cbn [getitem negb]. rewrite Ev.
      destruct v as [| | | s | l | m']; cbn [py_len] in *;
        try (now inversion Hr); try discriminate.
      * destruct l as [|x l]; [discriminate|].
        cbn [List.length Nat.eqb getitem0].
        destruct x; try discriminate; now inversion Hr.
      * destruct m' as [|x m']; [discriminate|].
        cbn [List.length Nat.eqb getitem0]. now inversion Hr.
Qed.

Lemma resolver_raises_on_unusable_response_witness :
  ns_answers (mkWorld "" [] [Opens (BodyJson (JObj [("ip", JNull)]))] [] None) =
    [Opens (BodyJson (JObj [("ip", JNull)]))] /\
  raised_by (BodyJson (JObj [("ip", JNull)])) = Some TypeError /\
  mlabns_a_record test_env (zone_question "A")
    (mkWorld "" [] [Opens (BodyJson (JObj [("ip", JNull)]))] [] None) =
  (Raises TypeError,
   mkWorld "" [] [] [request_for test_env (zone_question "A")] None).
Proof.
  split; [reflexivity|]. split; [reflexivity|].
  apply (resolver_raises_on_unusable_response test_env (zone_question "A")
           (mkWorld "" [] [Opens (BodyJson (JObj [("ip", JNull)]))] [] None)
           (BodyJson (JObj [("ip", JNull)])) [] TypeError); reflexivity.
Defined.

(** X13: when "ip" holds a string instead of a list, the resolver takes
    its first character for the address: the A record carries that one
    character, and nothing is logged. *)
Theorem resolver_takes_first_character (env : Env) (q : Query) (w : World)
  (m : list (string * json)) (c : ascii) (s : string) (more : list Lookup) :
  ns_answers w = Opens (BodyJson (JObj m)) :: more ->
  assoc "ip" m = Some (JStr (String c s)) ->
  no_percent (String c "") && is_ascii (String c "") && query_is_ascii q = true ->
  mlabns_a_record env q w =
  (Returns (Some (a_line q (String c ""))),
   answered (request_for env q) more w).
Proof.
  intros Hw Hm H. apply andb_true_iff in H as [H Hq].
  apply andb_true_iff in H as [Hp Ha].
  destruct (mlabns_a_record_opened env q w _ more Hw) as (k & _ & -> & ->).
  unfold bind, lift, ret. cbn [json_load ret not_in]. rewrite Hm.
  cbn [getitem]. rewrite Hm. cbn [py_len String.length Nat.eqb getitem0].
  rewrite Ha, Hq. cbn [andb]. now rewrite (a_record_plain q _ Hp).
Qed.

Lemma resolver_takes_first_character_witness :
  assoc "ip" [("ip", JStr "192.0.2.1")] = Some (JStr "192.0.2.1") /\
  mlabns_a_record test_env (zone_question "A")
    (mkWorld "" [] [Opens (BodyJson (JObj [("ip", JStr "192.0.2.1")]))] [] None) =
  (Returns (Some ("donar.measurement-lab.org" ++ TAB ++ "IN" ++ TAB ++ "A" ++ TAB ++
                  "300" ++ TAB ++ "7" ++ TAB ++ "1" ++ LF)),
   mkWorld "" [] [] [request_for test_env (zone_question "A")] None).
Proof.
  split; [reflexivity|].
  apply (resolver_takes_first_character test_env (zone_question "A")
           (mkWorld "" []
              [Opens (BodyJson (JObj [("ip", JStr "192.0.2.1")]))] [] None)
           [("ip", JStr "192.0.2.1")] "1" "92.0.2.1" []); reflexivity.
Defined.

(** X14: when the first lookup of an A or ANY question succeeds and the
    second cannot reach the naming service, the DATA line of the first is
    already written when [NameError] leaves the turn: both requests were
    sent, and the answer stays open, with no END line and no flush. *)
Theorem second_lookup_failure_leaves_answer_open (env : Env) (w : World)
  (line nm cls ty id rip ip : string) (resp1 : Response) (more : list Lookup) :
  split "009" (strip line) = ["Q"; nm; cls; ty; id; rip] ->
  In nm NDT_HOSTLIST ->
  ty = "A" \/ ty = "ANY" ->
  is_ascii cls && is_ascii id && is_ascii rip = true ->
  ns_answers w = Opens resp1 :: OpenFails :: more ->
  resolution resp1 = Some (Some ip) ->
  serve_line env line w =
  (Raises NameError,
   mkWorld (stdin w)
     (stdout w ++ [log_line ("INPUT: " ++ strip line ++ LF)] ++
      data_events (a_line (mkQuery "Q" (Some nm) (Some cls) (Some ty) id
                                   (Some rip) 300) ip))
     more
     (requests w ++
      [request_for env (mkQuery "Q" (Some nm) (Some cls) (Some ty) id
                                (Some rip) 300);
       request_for env (mkQuery "Q" (Some nm) (Some cls) (Some ty) id
                                (Some rip) 300)])
     (donar_txt w)).
Proof.
  intros Hs Hn Ht Ha Hw H1.
  set (q := mkQuery "Q" (Some nm) (Some cls) (Some ty) id (Some rip) 300).
  destruct (accepted_name nm Hn) as [Hacc Hnm].
  apply andb_true_iff in Ha as [Ha Hrip].
  apply andb_true_iff in Ha as [Hcls Hid].
  assert (Hty : is_ascii ty = true) by (destruct Ht; subst ty; reflexivity).
  assert (Hq : query_is_ascii q = true).
  { unfold query_is_ascii, q, opt_ascii.
    cbn [q_kind q_name q_class q_type q_id q_remote_ip].
    rewrite Hnm, Hcls, Hty, Hid, Hrip. reflexivity. }
  unfold serve_line.
  rewrite (bind_returns _ _ _ _ _ (query_to_dict_six _ w _ _ _ _ _ _ Hs)).
  rewrite (bind_returns _ _ _ _ _ (log_msg_run _ _)).
  cbn [q_kind q_name q_type]. rewrite Hacc.
  change (String.eqb "Q" "Q") with true. cbn [andb]. fold q.
  assert (Hl : ((reply <- mlabns_a_record env q ;; data_msg reply) ;;
                (reply <- mlabns_a_record env q ;; data_msg reply))
                 (add_out [log_line ("INPUT: " ++ strip line ++ LF)] w) =
               (Raises NameError,
                mkWorld (stdin w)
                  (stdout w ++ [log_line ("INPUT: " ++ strip line ++ LF)] ++
                   data_events (a_line q ip))
                  more
                  (requests w ++ [request_for env q; request_for env q])
                  (donar_txt w))).
  { rewrite (bind_returns _ _ _ _ _
               (lookup_and_reply env q
                  (add_out [log_line ("INPUT: " ++ strip line ++ LF)] w)
                  resp1 _ (Some ip) Hw H1 Hq)).
    erewrite bind_raises.
    2:{ apply mlabns_a_record_open_fails. reflexivity. }
    unfold add_out, answered.
    cbn [stdin stdout ns_answers requests donar_txt answer_events].
    now rewrite <- !app_assoc. }
  assert (Hsoa : opt_eqb (Some ty) "SOA" = false)
    by (destruct Ht; subst ty; reflexivity).
  assert (Hany : opt_in (Some ty) ["ANY"; "A"] = true)
    by (destruct Ht; subst ty; reflexivity).
  rewrite Hsoa, Hany.
  erewrite bind_raises; [reflexivity|].
  rewrite (bind_returns _ _ _ _ tt eq_refl).
  erewrite bind_raises; [reflexivity|]. exact Hl.
Qed.

Lemma second_lookup_failure_leaves_answer_open_witness :
  split "009" (strip (zone_question_line "A")) =
    ["Q"; DOMAIN; "IN"; "A"; "7"; "10.0.0.1"] /\
  resolution (BodyJson (JObj [("ip", JArr [JStr "192.0.2.1"])])) =
    Some (Some "192.0.2.1") /\
  serve_line test_env (zone_question_line "A")
    (mkWorld "" []
       [Opens (BodyJson (JObj [("ip", JArr [JStr "192.0.2.1"])])); OpenFails]
       [] None) =
  (Raises NameError,
   mkWorld ""
     ([log_line ("INPUT: " ++ strip (zone_question_line "A") ++ LF)] ++
      data_events (a_line (zone_question "A") "192.0.2.1"))
     []
     [request_for test_env (zone_question "A");
      request_for test_env (zone_question "A")]
     None).
Proof.
  split; [reflexivity|]. split; [reflexivity|].
  apply (second_lookup_failure_leaves_answer_open test_env
           (mkWorld "" []
              [Opens (BodyJson (JObj [("ip", JArr [JStr "192.0.2.1"])]));
               OpenFails] [] None)
           (zone_question_line "A") DOMAIN "IN" "A" "7" "10.0.0.1" "192.0.2.1"
           (BodyJson (JObj [("ip", JArr [JStr "192.0.2.1"])])) []).
  - reflexivity.
  - right; left; reflexivity.
  - left; reflexivity.
  - reflexivity.
  - reflexivity.
  - reflexivity.
Defined.

(** ** NS host source: failures stay inside *)

Lemma for_each_stops (q : Query) (env : Env) (pre post : list string)
  (bad : string) (e : exn) (w : World) :
  forallb (fun host => no_percent (strip host)) pre = true ->
  ns_record q ("utility.mlab." ++ strip bad) = Raises e ->
  for_each (pre ++ bad :: post)
    (fun host =>
       reply <- lift (ns_record q ("utility.mlab." ++ strip host)) ;;
       data_msg (Some reply)) w =
  (Raises e, add_out (ns_events q pre) w).
Proof.
  revert w. induction pre as [|h pre IH]; intros w Hp Hb.
  - cbn [app for_each]. unfold bind, lift. rewrite Hb.
    cbn. now rewrite add_out_nil.
  - cbn [forallb] in Hp. apply andb_true_iff in Hp as [Hh Hr].
    cbn [app for_each]. unfold bind at 1. unfold bind at 1. unfold lift.
    rewrite ns_record_plain by exact Hh.
    fold (ns_line q ("utility.mlab." ++ strip h)).
    rewrite data_msg_run, (IH _ Hr Hb), add_out_add_out. reflexivity.
Qed.

(** X16: when formatting one of the first six lines of the host list
    raises, [handle_ns_records] has replied for the lines before it, logs
    "Failed on" with the query, gives no reply for that line nor for any
    line after it, and returns. *)
Theorem handle_ns_records_stops_at_bad_line (env : Env) (q : Query) (w : World)
  (content bad : string) (pre post : list string) (e : exn) :
  donar_txt w = Some content ->
  firstn 6 (read_lines content) = (pre ++ bad :: post)%list ->
  forallb (fun host => no_percent (strip host)) pre = true ->
  ns_record q ("utility.mlab." ++ strip bad) = Raises e ->
  handle_ns_records env q w =
  (Returns tt,
   add_out (ns_events q pre ++
            [log_line ("Failed on: " ++ str_query env q ++ LF)]) w).
Proof.
  intros Hf Hl Hp Hb.
  unfold handle_ns_records, bind at 1, try_except at 1, bind at 1,
    open_readlines.
  rewrite Hf. cbn [ret]. unfold try_except. rewrite Hl.
  rewrite (for_each_stops q env pre post bad e w Hp Hb).
  rewrite log_msg_run. now rewrite add_out_add_out.
Qed.

Lemma handle_ns_records_stops_at_bad_line_witness :
  firstn 6 (read_lines bad_second_line) =
    ["h1" ++ LF; "%(x)s" ++ LF; "h3" ++ LF] /\
  ns_record (zone_question "NS") ("utility.mlab." ++ strip ("%(x)s" ++ LF)) =
    Raises KeyError /\
  handle_ns_records test_env (zone_question "NS") (with_hosts bad_second_line) =
  (Returns tt,
   add_out (data_events (ns_line (zone_question "NS") "utility.mlab.h1") ++
            [log_line ("Failed on: {}" ++ LF)])
           (with_hosts bad_second_line)).
Proof.
  split; [reflexivity|]. split; [reflexivity|].
  apply (handle_ns_records_stops_at_bad_line test_env (zone_question "NS")
           (with_hosts bad_second_line) bad_second_line ("%(x)s" ++ LF)
           ["h1" ++ LF] ["h3" ++ LF] KeyError); reflexivity.
Defined.

(** ** The serving loop, turn after turn *)

Lemma keeps_mlabns_a_record (env : Env) (q : Query) :
  keeps same_input (mlabns_a_record env q).
Proof.
  intros w o w' E.
  destruct (ns_answers w) as [|[|resp] more] eqn:Ea.
  - unfold mlabns_a_record, bind, try_except, urlopen in E. rewrite Ea in E.
    inversion E. now split.
  - unfold mlabns_a_record, bind, try_except, urlopen in E. rewrite Ea in E.
    inversion E. now split.
  - destruct (mlabns_a_record_opened env q w resp more Ea) as (k & K & Hk & _).
    rewrite Hk in E. destruct (K _ _ _ E) as (H1 & _ & _ & H4). now split.
Qed.

Lemma keeps_serve_line (env : Env) (line : string) :
  keeps same_input (serve_line env line).
Proof.
  unfold serve_line.
  repeat first
    [ apply keeps_mlabns_a_record
    | apply only_stdout_same_input;
      first [ apply keeps_query_to_dict | apply keeps_log_msg
            | apply keeps_data_msg | apply keeps_handle_ns_records
            | apply keeps_emit ]
    | apply keeps_ret; apply same_input_refl
    | apply keeps_lift; apply same_input_refl
    | apply keeps_bind; [apply same_input_trans | | intros ?]
    | match goal with
      | |- keeps _ (if ?b then _ else _) => destruct b
      | |- keeps _ (match ?x with _ => _ end) => destruct x
      end ].
Qed.

Lemma read_line_empty (s : string) : fst (read_line s) = "" <-> s = "".
Proof.
  destruct s as [|c s]; [now split|].
  cbn [read_line]. destruct (Ascii.eqb c "010"); [now split|].
  destruct (read_line s). now split.
Qed.

Lemma step_serving (env : Env) (w : World) :
  step env (mkSession SERVING w) =
  if String.eqb (fst (read_line (stdin w))) "" then
    mkSession TERMINATED (consumed (snd (read_line (stdin w))) w)
  else
    match serve_line env (fst (read_line (stdin w)))
                     (consumed (snd (read_line (stdin w))) w) with
    | (Returns _, w') => mkSession SERVING w'
    | (Raises e, w') => mkSession (CRASHED e) w'
    | (Unmodelled, w') => mkSession OUTSIDE_MODEL w'
    end.
Proof.
  unfold step. cbn [current world]. unfold after, serving_turn, bind at 1,
    stdin_readline.
  destruct (read_line (stdin w)) as [l rest]. cbn [fst snd].
  fold (consumed rest w).
  destruct (String.eqb l ""); [reflexivity|].
  unfold bind. now destruct (serve_line env l (consumed rest w)) as [[[]| |] w'].
Qed.

Lemma run_final (env : Env) (n : nat) (s : Session) :
  current s <> AWAITING_HANDSHAKE -> current s <> SERVING -> run env n s = s.
Proof.
  intros Ha Hs. induction n as [|n IH]; [reflexivity|].
  cbn [run]. unfold step.
  destruct (current s) eqn:E; try contradiction; exact IH.
Qed.

Lemma count_no_flush (evs : list event) :
  existsb is_flush evs = false -> count is_flush evs = 0.
Proof.
  unfold count. induction evs as [|e evs IH]; [reflexivity|].
  cbn [existsb filter]. intros H. apply orb_false_iff in H as [He Hr].
  rewrite He. exact (IH Hr).
Qed.

(** X17: the serving loop keeps the framing of the pipe protocol for as
    long as it runs: when [n] turns from SERVING leave the session in
    SERVING, exactly [n] lines were read, exactly [n] END lines and [n]
    flushes were written, and the host list is untouched. *)
Theorem served_turns_are_framed (env : Env) (n : nat) (w w' : World) :
  run env n (mkSession SERVING w) = mkSession SERVING w' ->
  count is_end (stdout w') = count is_end (stdout w) + n /\
  count is_flush (stdout w') = count is_flush (stdout w) + n /\
  stdin w' = after_lines n (stdin w) /\
  donar_txt w' = donar_txt w.
Proof.
  revert w. induction n as [|n IH]; intros w H.
  - cbn in H. inversion H; subst. cbn [after_lines]. repeat split; lia.
  - cbn [run] in H. rewrite step_serving in H.
    destruct (String.eqb (fst (read_line (stdin w))) "").
    + rewrite run_final in H by (cbn; discriminate). discriminate.
    + destruct (serve_line env (fst (read_line (stdin w)))
                  (consumed (snd (read_line (stdin w))) w))
        as [[[]|e|] w1] eqn:E.
      * destruct (IH _ H) as (H1 & H2 & H3 & H4).
        destruct (serve_line_returns _ _ _ _ E) as (evs & S & Ce & Cf).
        destruct (keeps_serve_line _ _ _ _ _ E) as [Si Sd].
        cbn [consumed stdin stdout donar_txt] in S, Si, Sd.
        rewrite H1, H2, H3, H4, S, Si, Sd. cbn [after_lines].
        rewrite !count_app, Ce, (count_no_flush _ Cf).
        repeat split; cbn; lia.
      * rewrite run_final in H by (cbn; discriminate). discriminate.
      * rewrite run_final in H by (cbn; discriminate). discriminate.
Qed.

Lemma served_turns_are_framed_witness :
  run test_env 2 (mkSession SERVING two_lines_world) =
    mkSession SERVING two_lines_served /\
  count is_end (stdout two_lines_served) =
    count is_end (stdout two_lines_world) + 2 /\
  stdin two_lines_served = "".
Proof.
  split; [vm_compute; reflexivity|].
  destruct (served_turns_are_framed test_env 2 two_lines_world two_lines_served)
    as (H1 & _ & H3 & _).
  - vm_compute; reflexivity.
  - split; [exact H1 | exact H3].
Defined.

(** X18: a serving session ends exactly at the end of the input: a turn
    from SERVING leads to TERMINATED if and only if no byte is left to read.
    An empty line, which still has its newline, is served like any other
    line. *)
Theorem serving_ends_only_at_eof (env : Env) (w : World) :
  current (step env (mkSession SERVING w)) = TERMINATED <-> stdin w = "".
Proof.
  rewrite step_serving, <- read_line_empty.
  destruct (String.eqb_spec (fst (read_line (stdin w))) "") as [E|E].
  - now split.
  - split; [|contradiction].
    destruct (serve_line env _ _) as [[[]|e|] w']; discriminate.
Qed.

(** ** Trimming before parsing *)

Lemma lstrip_first (s r : string) (c : ascii) :
  lstrip s = String c r -> is_space c = false.
Proof.
  induction s as [|x s IH]; [discriminate|].
  cbn [lstrip]. destruct (is_space x) eqn:E; [exact IH|].
  intros H. inversion H; subst. exact E.
Qed.

Lemma rstrip_first (s r : string) (c : ascii) :
  rstrip s = String c r -> exists r', s = String c r'.
Proof.
  destruct s as [|x s]; [discriminate|].
  cbn [rstrip]. destruct (rstrip s); [destruct (is_space x)|];
    intros H; inversion H; subst; now eexists.
Qed.

Lemma rstrip_last (s a : string) (c : ascii) :
  rstrip s = a ++ String c "" -> is_space c = false.
Proof.
  revert a. induction s as [|x s IH]; intros a.
  - destruct a; discriminate.
  - cbn [rstrip]. destruct (rstrip s) as [|y r] eqn:E.
    + destruct (is_space x) eqn:Ex.
      * destruct a; discriminate.
      * destruct a as [|z a]; cbn [append]; intros H; inversion H; subst.
        -- exact Ex.
        -- destruct a; discriminate.
    + destruct a as [|z a]; cbn [append]; intros H; inversion H; subst.
      apply (IH a). assumption.
Qed.

Lemma strip_first (s r : string) (c : ascii) :
  strip s = String c r -> is_space c = false.
Proof.
  unfold strip. intros H. destruct (rstrip_first _ _ _ H) as [r' Hr].
  exact (lstrip_first _ _ _ Hr).
Qed.

(** The first and the last field of a trimmed line are not empty when
    there are two or six fields. *)
Lemma trimmed_fields_not_empty (line : string) :
  (forall k n c t i r,
     split "009" (strip line) = [k; n; c; t; i; r] -> k <> "" /\ r <> "") /\
  (forall k i, split "009" (strip line) = [k; i] -> k <> "" /\ i <> "").
Proof.
  pose proof (split_concat "009" (strip line)) as Hj.
  split.
  - intros k n c t i r H. rewrite H in Hj. cbn [String.concat] in Hj. split.
    + intros ->. cbn [append] in Hj. symmetry in Hj.
      now apply strip_first in Hj.
    + intros ->. symmetry in Hj. unfold strip in Hj.
      change (rstrip (lstrip line) =
              k ++ TAB ++ n ++ TAB ++ c ++ TAB ++ t ++ TAB ++ i ++ TAB) in Hj.
      replace (k ++ TAB ++ n ++ TAB ++ c ++ TAB ++ t ++ TAB ++ i ++ TAB)
        with ((k ++ TAB ++ n ++ TAB ++ c ++ TAB ++ t ++ TAB ++ i) ++
              String "009" "") in Hj
        by (now rewrite !append_assoc).
      now apply rstrip_last in Hj.
  - intros k i H. rewrite H in Hj. cbn [String.concat] in Hj. split.
    + intros ->. cbn [append] in Hj. symmetry in Hj.
      now apply strip_first in Hj.
    + intros ->. symmetry in Hj. unfold strip in Hj.
      now apply rstrip_last in Hj.
Qed.


(** ** Writes and lines *)













(** ** Trimming and newlines *)








(** ** Requests of a turn *)

Lemma bind_assoc {A B C} (m : M A) (f : A -> M B) (g : B -> M C) (w : World) :
  bind (bind m f) g w = bind m (fun a => bind (f a) g) w.
Proof. unfold bind. now destruct (m w) as [[a|e|] w1]. Qed.

Lemma bind_ext {A B} (m : M A) (f g : A -> M B) (w : World) :
  (forall a w1, f a w1 = g a w1) -> bind m f w = bind m g w.
Proof. intros H. unfold bind. now destruct (m w) as [[a|e|] w1]. Qed.

Lemma keeps_bind_then {A B} (R1 R2 : World -> World -> Prop)
  (m : M A) (f : A -> M B) :
  (forall a b c, R1 a b -> R2 b c -> R1 a c) ->
  keeps R1 m -> (forall a, keeps R2 (f a)) -> keeps R1 (bind m f).
Proof.
  intros Hc Hm Hf w o w' E. unfold bind in E.
  destruct (m w) as [[a|e|] w1] eqn:E1; pose proof (Hm _ _ _ E1) as H1.
  - eapply Hc; [exact H1 | exact (Hf a _ _ _ E)].
  - now inversion E; subst.
  - now inversion E; subst.
Qed.

Lemma one_more_then_quiet (rq : Request) (a b c : World) :
  one_more rq a b -> only_stdout b c -> one_more rq a c.
Proof. unfold one_more. intros H (_ & _ & H3 & _). now rewrite H3. Qed.

Lemma mlabns_a_record_one_more (env : Env) (q : Query) :
  keeps (one_more (request_for env q)) (mlabns_a_record env q).
Proof.
  intros w o w' E. unfold one_more.
  destruct (ns_answers w) as [|[|resp] more] eqn:Ea.
  - unfold mlabns_a_record, bind, try_except, urlopen in E. rewrite Ea in E.
    now inversion E.
  - unfold mlabns_a_record, bind, try_except, urlopen in E. rewrite Ea in E.
    now inversion E.
  - destruct (mlabns_a_record_opened env q w resp more Ea) as (k & K & Hk & _).
    rewrite Hk in E. destruct (K _ _ _ E) as (_ & _ & H3 & _). now rewrite H3.
Qed.

Lemma lookup_reply_one_more (env : Env) (q : Query) :
  keeps (one_more (request_for env q))
        (reply <- mlabns_a_record env q ;; data_msg reply).
Proof.
  apply (keeps_bind_then _ only_stdout).
  - apply one_more_then_quiet.
  - apply mlabns_a_record_one_more.
  - intros a. apply keeps_data_msg.
Qed.

(** What is left of a turn after the first lookup of an A or ANY question:
    the second lookup, the NS part and the end of the answer. *)
Lemma rest_of_turn_one_more (env : Env) (q : Query) (ns : M unit) :
  keeps only_stdout ns ->
  keeps (one_more (request_for env q))
        (((reply <- mlabns_a_record env q ;; data_msg reply) ;; ns) ;;
         stdout_write ("END" ++ LF) ;; stdout_flush).
Proof.
  intros Hns.
  apply (keeps_bind_then _ only_stdout); [apply one_more_then_quiet | |].
  - apply (keeps_bind_then _ only_stdout); [apply one_more_then_quiet | |].
    + apply lookup_reply_one_more.
    + intros _. exact Hns.
  - intros _. quiet.
Qed.

Lemma ns_part_quiet (env : Env) (q : Query) (b : bool) :
  keeps only_stdout (if b then handle_ns_records env q else ret tt).
Proof.
  destruct b; [apply keeps_handle_ns_records|].
  apply keeps_ret, only_stdout_refl.
Qed.

(** A turn on an A or ANY question, from the first lookup on. *)
Lemma serve_question_from_lookup (env : Env) (line nm cls ty id rip : string)
  (w : World) :
  split "009" (strip line) = ["Q"; nm; cls; ty; id; rip] ->
  In nm NDT_HOSTLIST ->
  ty = "A" \/ ty = "ANY" ->
  serve_line env line w =
  bind (reply <- mlabns_a_record
                   env (mkQuery "Q" (Some nm) (Some cls) (Some ty) id (Some rip) 300) ;;
        data_msg reply)
       (fun _ =>
          (((reply <- mlabns_a_record
                        env (mkQuery "Q" (Some nm) (Some cls) (Some ty) id
                                     (Some rip) 300) ;;
             data_msg reply) ;;
            (if opt_in (Some ty) ["ANY"; "NS"]
             then handle_ns_records
                    env (mkQuery "Q" (Some nm) (Some cls) (Some ty) id (Some rip)
                                 300)
             else ret tt)) ;;
           stdout_write ("END" ++ LF) ;; stdout_flush))
       (add_out [log_line ("INPUT: " ++ strip line ++ LF)] w).
Proof.
  intros Hs Hn Ht. destruct (accepted_name nm Hn) as [Hacc _].
  unfold serve_line.
  rewrite (bind_returns _ _ _ _ _ (query_to_dict_six _ w _ _ _ _ _ _ Hs)).
  rewrite (bind_returns _ _ _ _ _ (log_msg_run _ _)).
  cbn [q_kind q_name q_type]. rewrite Hacc.
  change (String.eqb "Q" "Q") with true. cbn [andb].
  assert (Hsoa : opt_eqb (Some ty) "SOA" = false)
    by (destruct Ht; subst ty; reflexivity).
  assert (Hany : opt_in (Some ty) ["ANY"; "A"] = true)
    by (destruct Ht; subst ty; reflexivity).
  rewrite Hsoa, Hany.
  rewrite bind_assoc. rewrite (bind_returns _ _ _ _ tt eq_refl).
  rewrite bind_assoc. rewrite bind_assoc.
  apply bind_ext. intros a w1. symmetry. apply bind_assoc.
Qed.

(** ** The lines of an answer *)



















(** ** NS host source: no exception gets out *)




(** ** The address a served line asks about *)

Lemma asks_refl (rq : Request) (w : World) : asks rq w w.
Proof. exists []. split; [now rewrite app_nil_r | constructor]. Qed.

Lemma asks_trans (rq : Request) (a b c : World) :
  asks rq a b -> asks rq b c -> asks rq a c.
Proof.
  intros (l1 & H1 & F1) (l2 & H2 & F2). exists (l1 ++ l2)%list. split.
  - now rewrite H2, H1, app_assoc.
  - apply Forall_app. now split.
Qed.

Lemma quiet_asks {A} (rq : Request) (m : M A) :
  keeps only_stdout m -> keeps (asks rq) m.
Proof.
  intros H w o w' E. destruct (H _ _ _ E) as (_ & _ & H3 & _).
  exists []. split; [now rewrite app_nil_r | constructor].
Qed.

Lemma mlabns_a_record_asks (env : Env) (q : Query) :
  keeps (asks (request_for env q)) (mlabns_a_record env q).
Proof.
  intros w o w' E. exists [request_for env q]. split.
  - exact (mlabns_a_record_one_more env q _ _ _ E).
  - now repeat constructor.
Qed.

Lemma last_char_app (s : string) (c : ascii) :
  last_char s = Some c -> exists a, s = a ++ String c "".
Proof.
  induction s as [|x s IH]; [discriminate|].
  cbn [last_char]. destruct (last_char s) as [y|] eqn:E.
  - intros H. inversion H; subst y. destruct (IH eq_refl) as [a Ha].
    exists (String x a). cbn. now rewrite <- Ha.
  - intros H. inversion H; subst. destruct s; [|cbn in E; destruct (last_char s); discriminate].
    now exists "".
Qed.

(** The last of six fields of a trimmed line is not empty and does not end
    in whitespace. *)
Lemma trimmed_last_field (line k n c t i rip : string) :
  split "009" (strip line) = [k; n; c; t; i; rip] ->
  rip <> "" /\ blank_ended rip = false.
Proof.
  intros H. split; [exact (proj2 (proj1 (trimmed_fields_not_empty line) _ _ _ _ _ _ H))|].
  unfold blank_ended. destruct (last_char rip) as [x|] eqn:E; [|reflexivity].
  destruct (last_char_app _ _ E) as [a Ha].
  pose proof (split_concat "009" (strip line)) as Hj. rewrite H in Hj.
  cbn [String.concat] in Hj. symmetry in Hj. unfold strip in Hj.
  change (rstrip (lstrip line) =
          k ++ TAB ++ n ++ TAB ++ c ++ TAB ++ t ++ TAB ++ i ++ TAB ++ rip) in Hj.
  rewrite Ha in Hj.
  replace (k ++ TAB ++ n ++ TAB ++ c ++ TAB ++ t ++ TAB ++ i ++ TAB ++ a ++ String x "")
    with ((k ++ TAB ++ n ++ TAB ++ c ++ TAB ++ t ++ TAB ++ i ++ TAB ++ a) ++
          String x "") in Hj
    by (now rewrite !append_assoc).
  exact (rstrip_last _ _ _ Hj).
Qed.

Lemma serve_line_asks (env : Env) (line k n c t i rip : string) :
  split "009" (strip line) = [k; n; c; t; i; rip] ->
  keeps (asks (request_for env (mkQuery k (Some n) (Some c) (Some t) i (Some rip)
                                        300)))
        (serve_line env line).
Proof.
  intros Hs w o w' E. unfold serve_line in E.
  rewrite (bind_returns _ _ _ _ _ (query_to_dict_six _ w _ _ _ _ _ _ Hs)) in E.
  match type of E with
  | ?m w = _ =>
      assert (K : keeps (asks (request_for env (mkQuery k (Some n) (Some c)
                                                  (Some t) i (Some rip) 300))) m)
  end.
  { repeat first
      [ apply mlabns_a_record_asks
      | apply quiet_asks;
        first [ apply keeps_log_msg | apply keeps_data_msg
              | apply keeps_handle_ns_records | apply keeps_emit ]
      | apply keeps_ret; apply asks_refl
      | apply keeps_lift; apply asks_refl
      | apply keeps_bind; [apply asks_trans | | intros ?]
      | match goal with
        | |- keeps _ (if ?b then _ else _) => destruct b
        end ]. }
  exact (K _ _ _ E).
Qed.

Lemma serve_line_malformed_world (env : Env) (line : string) (w : World) :
  List.length (split "009" (strip line)) <> 2 ->
  List.length (split "009" (strip line)) <> 6 ->
  requests (snd (serve_line env line w)) = requests w.
Proof.
  intros H2 H6. unfold serve_line.
  rewrite (bind_returns _ _ _ _ _ (query_to_dict_other _ w H2 H6)).
  rewrite (bind_returns _ _ _ _ _ (log_msg_run _ _)).
  now rewrite finish_silent.
Qed.

Lemma serve_line_control_world (env : Env) (line kind id : string) (w : World) :
  split "009" (strip line) = [kind; id] ->
  requests (snd (serve_line env line w)) = requests w.
Proof.
  intros H. unfold serve_line.
  rewrite (bind_returns _ _ _ _ _ (query_to_dict_two _ w _ _ H)).
  rewrite (bind_returns _ _ _ _ _ (log_msg_run _ _)).
  cbn [q_kind q_name opt_in existsb opt_eqb]. rewrite andb_false_r.
  now rewrite finish_silent.
Qed.

Lemma question_sends_a_request (env : Env) (line nm cls ty id rip : string)
  (w : World) (sent : list Request) :
  split "009" (strip line) = ["Q"; nm; cls; ty; id; rip] ->
  In nm NDT_HOSTLIST ->
  ty = "A" \/ ty = "ANY" ->
  requests (snd (serve_line env line w)) = (requests w ++ sent)%list ->
  sent <> [].
Proof.
  intros Hs Hn Ht Hreq.
  rewrite (serve_question_from_lookup env line nm cls ty id rip w Hs Hn Ht)
    in Hreq.
  unfold bind at 1 in Hreq.
  match type of Hreq with
  | context [let (_, _) := ?l ?w0 in _] =>
      destruct (l w0) as [o1 w1] eqn:E1;
      pose proof (lookup_reply_one_more env _ _ _ _ E1) as H1
  end.
  unfold one_more in H1. cbn [add_out requests] in H1.
  destruct o1 as [[]|e|].
  - match type of Hreq with
    | context [?k w1] =>
        match type of k with
        | M unit => destruct (k w1) as [o2 w2] eqn:E2
        end
    end.
    apply rest_of_turn_one_more in E2; [|apply ns_part_quiet].
    unfold one_more in E2. cbn [snd] in Hreq.
    rewrite E2, H1, <- app_assoc in Hreq. apply app_inv_head in Hreq.
    now subst sent.
  - cbn [snd] in Hreq. rewrite H1 in Hreq. apply app_inv_head in Hreq.
    now subst sent.
  - cbn [snd] in Hreq. rewrite H1 in Hreq. apply app_inv_head in Hreq.
    now subst sent.
Qed.

(** X19: every request sent while a line is served asks about the last
    field of the trimmed line, which is then one of six fields, is not
    empty and does not end in whitespace (it has lost the newline of the
    line); a line with another number of fields sends none, and a question
    for an accepted name of type A or ANY sends at least one. *)
Theorem served_requests_carry_trimmed_address (env : Env) (line : string)
  (w : World) :
  exists sent,
    requests (snd (serve_line env line w)) = (requests w ++ sent)%list /\
    Forall (fun r =>
              exists k n c t i rip,
                split "009" (strip line) = [k; n; c; t; i; rip] /\
                req_url r = lookup_url rip /\
                rip <> "" /\ blank_ended rip = false) sent /\
    (forall n c t i rip,
       split "009" (strip line) = ["Q"; n; c; t; i; rip] ->
       In n NDT_HOSTLIST -> t = "A" \/ t = "ANY" -> sent <> []).
Proof.
  destruct (split "009" (strip line))
    as [|a [|b [|c [|d [|e [|f [|g l]]]]]]] eqn:Hs.
  7:{ destruct (serve_line env line w) as [o w'] eqn:E.
      destruct (serve_line_asks env line _ _ _ _ _ _ Hs _ _ _ E)
        as (sent & Hreq & Hall).
      exists sent. cbn [snd]. split; [exact Hreq|]. split.
      - eapply Forall_impl; [|exact Hall]. intros r <-.
        exists a, b, c, d, e, f. split; [reflexivity|].
        split; [reflexivity|]. exact (trimmed_last_field _ _ _ _ _ _ _ Hs).
      - intros n' c' t' i' rip' Heq Hn Ht. inversion Heq; subst.
        apply (question_sends_a_request env line n' c' t' i' rip' w sent Hs Hn Ht).
        now rewrite E. }
  3:{ exists []. rewrite app_nil_r.
      split; [exact (serve_line_control_world env line _ _ w Hs)|].
      split; [constructor | discriminate]. }
  all: exists []; rewrite app_nil_r;
    (split; [apply serve_line_malformed_world; rewrite Hs; cbn; discriminate|]);
    (split; [constructor | discriminate]).
Qed.
